(** * codesync: the lookup and refresh endpoints

    A shallow embedding of [src/api/get-score.js], [src/api/refresh-stats.js]
    and of the later revision of the refresh endpoint kept as
    [src/unnamed/part_000], with the properties of the orchestration
    contract proved over it.

    JavaScript values are a small inductive type; the external
    collaborators (token verification, the profile store, the four
    upstream sites) are a record of answers, the [World]; what a handler
    does to them is recorded as a list of [event]s next to its response.
    The start-up of the Firebase client at the top of the refresh files
    runs before any request and is not part of a handler.

    Three things of the libraries and of the language decide what the
    handlers do and are followed here: a [DocumentSnapshot] of
    firebase-admin has [exists] as a boolean property, so that the call
    [docSnap.exists()] of the refresh throws; [Object.assign] hands a
    property named [__proto__] to the setter of [Object.prototype]; and
    [cheerio.load] throws on a body that is not markup. *)

From Stdlib Require Import ZArith Ascii String.
From stdpp Require Import base option list strings gmap pretty.

Set Warnings "-register-all".

Local Open Scope string_scope.
Local Open Scope Z_scope.

(** ** JavaScript values *)

(** Numbers are the integers the endpoints count with, and [JNaN] for what
    [parseInt] gives on text without digits.  An object is the list of its
    own properties, one binding per key. *)
Inductive jsval : Type :=
| JUndefined
| JNull
| JBool (b : bool)
| JNum (n : Z)
| JNaN
| JStr (s : string)
| JArr (items : list jsval)
| JObj (fields : list (string * jsval)).

(** The completion of an expression, a statement list or an async body:
    a value, or a thrown error. *)
Inductive completion (A : Type) : Type :=
| Normal (a : A)
| Throw (e : string).
Arguments Normal {A} a.
Arguments Throw {A} e.

#[global] Instance completion_ret : MRet completion := fun A a => Normal a.
#[global] Instance completion_bind : MBind completion := fun A B f c =>
  match c with
  | Normal a => f a
  | Throw e => Throw e
  end.

(** [try { c } catch { h }] *)
Definition try_catch {A} (c : completion A) (h : string -> completion A) : completion A :=
  match c with
  | Normal a => Normal a
  | Throw e => h e
  end.

(** ToBoolean *)
Definition truthy (v : jsval) : bool :=
  match v with
  | JUndefined | JNull | JNaN => false
  | JBool b => b
  | JNum n => negb (n =? 0)
  | JStr s => negb (String.eqb s "")
  | JArr _ | JObj _ => true
  end.

(** [a || b] *)
Definition js_or (a b : jsval) : jsval := if truthy a then a else b.

(** Own property of an object, first binding. *)
Fixpoint own (fields : list (string * jsval)) (k : string) : jsval :=
  match fields with
  | [] => JUndefined
  | (k', v) :: rest => if String.eqb k' k then v else own rest k
  end.

(** [v.k] for the property names the endpoints read ([errors], [data],
    [matchedUser], [difficulty], ...), none of which a string, a number or
    an array has by itself: reading them off [undefined] or [null] is a
    TypeError, off any other primitive or an array it is [undefined]. *)
Definition prop (v : jsval) (k : string) : completion jsval :=
  match v with
  | JUndefined | JNull => Throw "TypeError: cannot read properties"
  | JObj fields => Normal (own fields k)
  | _ => Normal JUndefined
  end.

(** [v?.k] *)
Definition opt_prop (v : jsval) (k : string) : completion jsval :=
  match v with
  | JUndefined | JNull => Normal JUndefined
  | _ => prop v k
  end.

(** [v === 'label'] *)
Definition strict_eq_str (v : jsval) (label : string) : bool :=
  match v with
  | JStr s => String.eqb s label
  | _ => false
  end.

(** [items.find(s => s[k] === label)]: the first element whose property
    [k] is the string [label], [undefined] when there is none; the callback
    throws on a [null] element met before a match. *)
Fixpoint find_labelled (k label : string) (items : list jsval) : completion jsval :=
  match items with
  | [] => Normal JUndefined
  | s :: rest =>
      d ← prop s k;
      if strict_eq_str d label then Normal s else find_labelled k label rest
  end.

(** [stats.find(...)] on any value: only an array has [find]. *)
Definition js_find (k label : string) (stats : jsval) : completion jsval :=
  match stats with
  | JArr items => find_labelled k label items
  | _ => Throw "TypeError: stats.find is not a function"
  end.

(** [f()] on a value: no value of [jsval] is a function, so the call is
    a TypeError. *)
Definition call_value (f : jsval) : completion jsval :=
  Throw "TypeError: not a function".

(** Lower-casing of the ASCII letters, the other characters left as they
    are.  This is not the whole of [String.prototype.toLowerCase], which
    also maps characters outside ASCII (the Kelvin sign U+212A to the
    letter k): the method is [js_toLowerCase] below, which agrees with
    this function on ASCII strings and asks the case tables of the
    runtime about the others.  Strings are sequences of bytes, a
    character outside ASCII being bytes of 128 and above. *)
Definition lower_ascii (c : ascii) : ascii :=
  let n := nat_of_ascii c in
  if ((65 <=? n) && (n <=? 90))%nat then ascii_of_nat (n + 32) else c.

Fixpoint toLowerCase (s : string) : string :=
  match s with
  | EmptyString => EmptyString
  | String c rest => String (lower_ascii c) (toLowerCase rest)
  end.

(** A string of ASCII characters only. *)
Fixpoint is_ascii (s : string) : bool :=
  match s with
  | EmptyString => true
  | String c rest => (nat_of_ascii c <? 128)%nat && is_ascii rest
  end.

(** [s.split(sep)] for a non-empty separator: [skip] counts the characters
    of a matched separator still to pass over, [cur] is the piece being
    read. *)
Fixpoint split_go (sep : string) (skip : nat) (cur : string) (s : string) : list string :=
  match s with
  | EmptyString => [cur]
  | String c rest =>
      match skip with
      | S k => split_go sep k cur rest
      | O =>
          if String.prefix sep s
          then cur :: split_go sep (String.length sep - 1)%nat "" rest
          else split_go sep 0 (cur +:+ String c "") rest
      end
  end.

Definition split (sep s : string) : list string := split_go sep 0 "" s.

(** [Object.assign(target, source)] into a plain object used as a map:
    every own enumerable property of the source is written with [Set],
    in order, over the target; an array or a string gives its elements
    under their indices, [null], [undefined] and the other primitives give
    nothing.  A property named [__proto__] goes to the setter that the
    target inherits from [Object.prototype] and makes no own property. *)
Definition set_property (target : gmap string jsval) (kv : string * jsval)
  : gmap string jsval :=
  if String.eqb kv.1 "__proto__" then target else <[kv.1 := kv.2]> target.

Definition assign_fields (target : gmap string jsval) (fields : list (string * jsval))
  : gmap string jsval :=
  foldl set_property target fields.

Definition indexed {A} (f : A -> jsval) (l : list A) : list (string * jsval) :=
  imap (fun i x => (pretty i, f x)) l.

Definition Object_assign (target : gmap string jsval) (source : jsval) : gmap string jsval :=
  match source with
  | JObj fields => assign_fields target fields
  | JArr items => assign_fields target (indexed id items)
  | JStr s => assign_fields target (indexed (fun c => JStr (String c "")) (list_ascii_of_string s))
  | _ => target
  end.

(** [`${v}`]: the string a template literal makes of a value. *)
Fixpoint String_of (v : jsval) : string :=
  match v with
  | JUndefined => "undefined"
  | JNull => "null"
  | JBool b => if b then "true" else "false"
  | JNum n => pretty n
  | JNaN => "NaN"
  | JStr s => s
  | JArr items =>
      String.concat ","
        (map (fun x => match x with JUndefined | JNull => "" | _ => String_of x end) items)
  | JObj _ => "[object Object]"
  end.

(** [new Error(m).message] *)
Definition Error_message (m : jsval) : string :=
  match m with
  | JUndefined => ""
  | _ => String_of m
  end.

(** [xs[0]] *)
Definition elem0 (xs : jsval) : jsval :=
  match xs with
  | JArr (x :: _) => x
  | JStr (String c _) => JStr (String c "")
  | JObj fields => own fields "0"
  | _ => JUndefined
  end.

(** ** The external collaborators *)

Inductive platform : Type := LeetCode | CodeChef | HackerRank | Gfg.

#[global] Instance platform_eq_dec : EqDecision platform.
Proof. solve_decision. Defined.

(** The key an adapter nests its record under. *)
Definition key (p : platform) : string :=
  match p with
  | LeetCode => "leetcode"
  | CodeChef => "codechef"
  | HackerRank => "hackerrank"
  | Gfg => "gfg"
  end.

(** The answer of an HTTP request made with axios, or of a read of the
    profile store: axios throws on a network error and on a status
    outside 2xx. *)
Inductive fetched (A : Type) : Type :=
| Failed (e : string)
| Served (a : A).
Arguments Failed {A} e.
Arguments Served {A} a.

(** The scraping adapters load a served body with [cheerio.load] and read
    it with CSS selectors, regular expressions and [parseInt].  The load
    (or a read) throws on a body that is not markup, as a body that axios
    has parsed to [null]; otherwise a page is given here by what the reads
    find on it, the selectors themselves being the upstream's side. *)
Inductive scraped (A : Type) : Type :=
| Unreadable (e : string)
| Read (a : A).
Arguments Unreadable {A} e.
Arguments Read {A} a.

(** The files do not parse the numbers alike: [parseInt(text, 10)] in
    src/api/get-score.js, [parseInt(text)] in src/api/refresh-stats.js,
    and both in src/unnamed/part_000.  A number of a page is given once
    for each way of parsing its text. *)
Inductive radix : Type := Radix10 | NoRadix.

Record CodeChefPage : Type := {
  cc_problems_solved : radix -> jsval;       (* parseInt of the digits in the h3, or of '0' *)
  cc_contest_rating : radix -> jsval;        (* parseInt of .rating-number, or of '0' *)
  cc_stars : string;                         (* span.rating, or 'Unrated' *)
  cc_contests_participated : radix -> jsval  (* parseInt of the count, or of '0' *)
}.

Record HackerRankPage : Type := {
  hacker_badges : nat               (* $('div.hacker-badge').length *)
}.

(** The script element of a GeeksforGeeks page: no [user_profile_data]
    found, one that [JSON.parse] or the read of [submission_counts]
    throws on, or the three counts as they are in the JSON. *)
Inductive GfgScript : Type :=
| NoProfileData
| BrokenProfileData (e : string)
| SubmissionCounts (easy medium hard : jsval).

Record GfgPage : Type := {
  gfg_score_card : radix -> jsval;  (* parseInt of the score card value *)
  gfg_script : GfgScript
}.

(** [docSnap.data()]: the usernames the refresh reads. *)
Record UserData : Type := {
  leetcode_username : jsval;
  codechef_username : jsval;
  hackerrank_username : jsval;
  gfg_username : jsval
}.

(** The answers of the outside world to one request.  [verifyIdToken]
    gives the uid, or [None] when it rejects; [users_get uid] is the read
    [db.collection('users').doc(uid).get()], [Failed] when it throws,
    [Served None] for the snapshot of a document that does not exist and
    [Served (Some data)] for that of one that does; [users_update] tells
    whether the write went through ([false]: it throws);
    [unicode_toLowerCase] is what the case tables of the runtime make of
    a string that has characters outside ASCII. *)
Record World : Type := {
  verifyIdToken : string -> option string;
  users_get : string -> fetched (option UserData);
  users_update : string -> gmap string jsval -> bool;
  leetcode_graphql : jsval -> fetched jsval;
  codechef_profile : jsval -> fetched (scraped CodeChefPage);
  hackerrank_profile : jsval -> fetched (scraped HackerRankPage);
  gfg_profile : jsval -> fetched (scraped GfgPage);
  unicode_toLowerCase : string -> string
}.

(** [s.toLowerCase()].  On an ASCII string it is the lower-casing of the
    letters.  On any string, lower-casing the ASCII letters first does not
    change the result (they lower-case to the same letters, and are cased
    before and after for the rule of the final sigma), so the case tables
    are asked about the string with its ASCII letters in lower case. *)
Definition js_toLowerCase (w : World) (s : string) : string :=
  if is_ascii s then toLowerCase s else unicode_toLowerCase w (toLowerCase s).

(** The [exists] property of a snapshot: a boolean. *)
Definition snapshot_exists (docSnap : option UserData) : jsval :=
  match docSnap with
  | Some _ => JBool true
  | None => JBool false
  end.

(** What a handler does to the outside world, in program order; the
    update carries the [stats] field it writes (next to it goes the
    server timestamp).  Console output is not recorded. *)
Inductive event : Type :=
| VerifyIdToken (idToken : string)
| DocGet (uid : string)
| DocUpdate (uid : string) (stats : gmap string jsval)
| HttpCall (site : platform) (username : jsval).

Definition is_profile_access (e : event) : bool :=
  match e with
  | DocGet _ | DocUpdate _ _ => true
  | _ => false
  end.

Definition is_network_call (e : event) : bool :=
  match e with
  | HttpCall _ _ => true
  | _ => false
  end.

Definition is_update (e : event) : bool :=
  match e with
  | DocUpdate _ _ => true
  | _ => false
  end.

(** A call of an async function: the requests it starts at once, and what
    its promise settles with. *)
Definition async (A : Type) : Type := list event * completion A.

Record Response : Type := {
  status : Z;
  headers : list (string * string);
  body : jsval
}.

(** [response.status(code).json(body)] *)
Definition json (code : Z) (b : jsval) : Response :=
  {| status := code; headers := []; body := b |}.

(** ** The records the adapters build *)

(** [stats.find(s => s[dk] === label)?.[ck] || 0] *)
Definition bucket (dk ck label : string) (stats : jsval) : completion jsval :=
  found ← js_find dk label stats;
  c ← opt_prop found ck;
  mret (js_or c (JNum 0)).

(** [data.data.matchedUser.submitStats.acSubmissionNum] *)
Definition acSubmissionNum (data : jsval) : completion jsval :=
  d ← prop data "data";
  m ← prop d "matchedUser";
  s ← prop m "submitStats";
  prop s "acSubmissionNum".

(** The LeetCode record; [dk] and [ck] are the names the query gives the
    difficulty and the count of an entry. *)
Definition leetcode_record (dk ck : string) (stats : jsval) : completion jsval :=
  all ← bucket dk ck "All" stats;
  easy ← bucket dk ck "Easy" stats;
  medium ← bucket dk ck "Medium" stats;
  hard ← bucket dk ck "Hard" stats;
  mret (JObj [("leetcode", JObj [("problems_solved", all); ("Easy", easy);
                                 ("Medium", medium); ("Hard", hard)])]).

Definition codechef_record (r : radix) (page : CodeChefPage) : jsval :=
  JObj [("codechef", JObj [("problems_solved", cc_problems_solved page r);
                           ("contest_rating", cc_contest_rating page r);
                           ("stars", JStr (cc_stars page));
                           ("contests_participated", cc_contests_participated page r)])].

Definition hackerrank_record (page : HackerRankPage) : jsval :=
  JObj [("hackerrank", JObj [("badges", js_or (JNum (Z.of_nat (hacker_badges page))) (JNum 0))])].

Definition gfg_fields (username total easy medium hard : jsval) : list (string * jsval) :=
  [("username", username); ("totalProblemsSolved", total);
   ("easyProblems", easy); ("mediumProblems", medium); ("hardProblems", hard)].

(** The three counts of a GeeksforGeeks script, each [|| 0]. *)
Definition gfg_counts (easy medium hard : jsval) : jsval * jsval * jsval :=
  (js_or easy (JNum 0), js_or medium (JNum 0), js_or hard (JNum 0)).

Definition gfg_zero : jsval * jsval * jsval := (JNum 0, JNum 0, JNum 0).

(** ** src/api/get-score.js *)

(** The file holds the endpoint twice (lines 1 to 171 and 172 to 342);
    the first copy is the one given here. *)
Module GetScore.

Record Request : Type := {
  query_platform : jsval;
  query_username : jsval
}.

Definition getLeetCodeStats (w : World) (username : jsval) : async jsval :=
  ([HttpCall LeetCode username],
   match leetcode_graphql w username with
   | Failed e => Throw e
   | Served data =>
       errors ← prop data "errors";
       if truthy errors then
         message ← prop (elem0 errors) "message";
         Throw (Error_message message)
       else
         stats ← acSubmissionNum data;
         leetcode_record "difficulty" "count" stats
   end).

Definition getCodeChefStats (w : World) (username : jsval) : async jsval :=
  ([HttpCall CodeChef username],
   match codechef_profile w username with
   | Failed e => Throw e
   | Served (Unreadable e) => Throw e
   | Served (Read page) => Normal (codechef_record Radix10 page)
   end).

Definition getHackerRankStats (w : World) (username : jsval) : async jsval :=
  ([HttpCall HackerRank username],
   match hackerrank_profile w username with
   | Failed e => Throw e
   | Served (Unreadable e) => Throw e
   | Served (Read page) => Normal (hackerrank_record page)
   end).

(** The record is flat here; a script that does not parse is caught and
    leaves the three counts at zero. *)
Definition getGfgStats (w : World) (username : jsval) : async jsval :=
  ([HttpCall Gfg username],
   match gfg_profile w username with
   | Failed e => Throw e
   | Served (Unreadable e) => Throw e
   | Served (Read page) =>
       let totalProblemsSolved := js_or (gfg_score_card page Radix10) (JNum 0) in
       let '(easy, medium, hard) :=
         match gfg_script page with
         | SubmissionCounts e m h => gfg_counts e m h
         | BrokenProfileData _ | NoProfileData => gfg_zero
         end in
       Normal (JObj (gfg_fields username totalProblemsSolved easy medium hard))
   end).

(** [platform.toLowerCase()] *)
Definition lowered (w : World) (platform : jsval) : completion string :=
  match platform with
  | JStr s => Normal (js_toLowerCase w s)
  | _ => Throw "TypeError: platform.toLowerCase is not a function"
  end.

Definition bad_request : Response :=
  json 400 (JObj [("error", JStr "Platform and username are required query parameters.")]).

Definition unsupported : Response :=
  json 400 (JObj [("error", JStr "Unsupported platform provided.")]).

Definition ok (data : jsval) : Response :=
  {| status := 200;
     headers := [("Cache-Control", "s-maxage=3600, stale-while-revalidate")];
     body := data |}.

Definition failure (platform : jsval) : Response :=
  json 500 (JObj [("error", JStr ("Failed to fetch stats for " +:+ String_of platform +:+
    ". The user might not exist or the site's layout may have changed."))]).

(** [data = await adapter(username); ...; return response.status(200).json(data)] *)
Definition answer (call : async jsval) : async Response :=
  (call.1, data ← call.2; mret (ok data)).

(** The [try] block: the switch, then the success response. *)
Definition dispatch (w : World) (platform username : jsval) : async Response :=
  match lowered w platform with
  | Throw e => ([], Throw e)
  | Normal name =>
      if String.eqb name "leetcode" then answer (getLeetCodeStats w username)
      else if String.eqb name "codechef" then answer (getCodeChefStats w username)
      else if String.eqb name "hackerrank" then answer (getHackerRankStats w username)
      else if String.eqb name "gfg" then answer (getGfgStats w username)
      else ([], Normal unsupported)
  end.

Definition handler (w : World) (request : Request) : Response * list event :=
  let platform := query_platform request in
  let username := query_username request in
  if negb (truthy platform) || negb (truthy username) then (bad_request, [])
  else
    let tried := dispatch w platform username in
    (match tried.2 with
     | Normal response => response
     | Throw _ => failure platform
     end, tried.1).

End GetScore.

(** ** The adapters of src/api/refresh-stats.js *)

(** The four empty declarations of lines 86 to 89 are replaced by the
    full ones below them, which are the ones given here.  An error-shaped
    LeetCode payload gives [null]; anything else that goes wrong rejects
    the promise.  No [parseInt] has a radix. *)
Module RefreshStats.

Definition getLeetCodeStats (w : World) (username : jsval) : async jsval :=
  ([HttpCall LeetCode username],
   match leetcode_graphql w username with
   | Failed e => Throw e
   | Served data =>
       errors ← prop data "errors";
       if truthy errors then Normal JNull
       else
         stats ← acSubmissionNum data;
         leetcode_record "d" "c" stats
   end).

Definition getCodeChefStats (w : World) (username : jsval) : async jsval :=
  ([HttpCall CodeChef username],
   match codechef_profile w username with
   | Failed e => Throw e
   | Served (Unreadable e) => Throw e
   | Served (Read page) => Normal (codechef_record NoRadix page)
   end).

Definition getHackerRankStats (w : World) (username : jsval) : async jsval :=
  ([HttpCall HackerRank username],
   match hackerrank_profile w username with
   | Failed e => Throw e
   | Served (Unreadable e) => Throw e
   | Served (Read page) => Normal (hackerrank_record page)
   end).

(** Nested under [gfg]; no inner [try] around the script. *)
Definition getGfgStats (w : World) (username : jsval) : async jsval :=
  ([HttpCall Gfg username],
   match gfg_profile w username with
   | Failed e => Throw e
   | Served (Unreadable e) => Throw e
   | Served (Read page) =>
       let totalProblemsSolved := js_or (gfg_score_card page NoRadix) (JNum 0) in
       counts ← match gfg_script page with
                | SubmissionCounts e m h => Normal (gfg_counts e m h)
                | BrokenProfileData e => Throw e
                | NoProfileData => Normal gfg_zero
                end;
       let '(easy, medium, hard) := counts in
       mret (JObj [("gfg", JObj (gfg_fields username totalProblemsSolved easy medium hard))])
   end).

End RefreshStats.

(** ** The adapters of src/unnamed/part_000 *)

(** Each body is wrapped in [try ... catch] and gives [null] on any
    error: these promises never reject.  The score card of GeeksforGeeks
    is parsed with radix 10, the numbers of CodeChef without radix. *)
Module Part000.

Definition or_null (c : completion jsval) : completion jsval :=
  try_catch c (fun _ => Normal JNull).

Definition getLeetCodeStats (w : World) (username : jsval) : async jsval :=
  ([HttpCall LeetCode username],
   or_null
     match leetcode_graphql w username with
     | Failed e => Throw e
     | Served data =>
         errors ← prop data "errors";
         if truthy errors then Normal JNull
         else
           stats ← acSubmissionNum data;
           leetcode_record "d" "c" stats
     end).

Definition getCodeChefStats (w : World) (username : jsval) : async jsval :=
  ([HttpCall CodeChef username],
   or_null
     match codechef_profile w username with
     | Failed e => Throw e
     | Served (Unreadable e) => Throw e
     | Served (Read page) => Normal (codechef_record NoRadix page)
     end).

Definition getHackerRankStats (w : World) (username : jsval) : async jsval :=
  ([HttpCall HackerRank username],
   or_null
     match hackerrank_profile w username with
     | Failed e => Throw e
     | Served (Unreadable e) => Throw e
     | Served (Read page) => Normal (hackerrank_record page)
     end).

Definition getGfgStats (w : World) (username : jsval) : async jsval :=
  ([HttpCall Gfg username],
   or_null
     match gfg_profile w username with
     | Failed e => Throw e
     | Served (Unreadable e) => Throw e
     | Served (Read page) =>
         let totalProblemsSolved := js_or (gfg_score_card page Radix10) (JNum 0) in
         let '(easy, medium, hard) :=
           match gfg_script page with
           | SubmissionCounts e m h => gfg_counts e m h
           | BrokenProfileData _ | NoProfileData => gfg_zero
           end in
         Normal (JObj [("gfg", JObj (gfg_fields username totalProblemsSolved easy medium hard))])
     end).

End Part000.

(** ** The refresh handler *)

(** [handler] is the same text in src/api/refresh-stats.js and in
    src/unnamed/part_000 (which adds a console line for a rejected
    promise); [source_file] says whose adapters it calls. *)
Module Refresh.

Inductive source_file : Type := refresh_stats_js | part_000.

Record Request : Type := {
  method : string;
  authorization : option string     (* request.headers.authorization *)
}.

Definition getLeetCodeStats (f : source_file) : World -> jsval -> async jsval :=
  match f with
  | refresh_stats_js => RefreshStats.getLeetCodeStats
  | part_000 => Part000.getLeetCodeStats
  end.

Definition getCodeChefStats (f : source_file) : World -> jsval -> async jsval :=
  match f with
  | refresh_stats_js => RefreshStats.getCodeChefStats
  | part_000 => Part000.getCodeChefStats
  end.

Definition getHackerRankStats (f : source_file) : World -> jsval -> async jsval :=
  match f with
  | refresh_stats_js => RefreshStats.getHackerRankStats
  | part_000 => Part000.getHackerRankStats
  end.

Definition getGfgStats (f : source_file) : World -> jsval -> async jsval :=
  match f with
  | refresh_stats_js => RefreshStats.getGfgStats
  | part_000 => Part000.getGfgStats
  end.

(** The terminal state of a promise, as [Promise.allSettled] reports it. *)
Inductive settled : Type :=
| Fulfilled (value : jsval)
| Rejected (reason : string).

Definition settle (c : completion jsval) : settled :=
  match c with
  | Normal v => Fulfilled v
  | Throw e => Rejected e
  end.

(** Lines 52 to 56: the calls started, in this order. *)
Definition scrapePromises (f : source_file) (w : World) (userData : UserData)
  : list (async jsval) :=
  (if truthy (leetcode_username userData)
   then [getLeetCodeStats f w (leetcode_username userData)] else []) ++
  (if truthy (codechef_username userData)
   then [getCodeChefStats f w (codechef_username userData)] else []) ++
  (if truthy (hackerrank_username userData)
   then [getHackerRankStats f w (hackerrank_username userData)] else []) ++
  (if truthy (gfg_username userData)
   then [getGfgStats f w (gfg_username userData)] else []).

(** [Promise.allSettled]: the promise with index [i] writes its terminal
    state into slot [i] of the result when it settles; [order] lists the
    indices in the order in which the promises settle.  The join resolves
    once every slot is written, with the slots in input order; [None]
    is a join that does not resolve. *)
Definition fill (promises : list settled) (values : list (option settled)) (i : nat)
  : list (option settled) :=
  match promises !! i with
  | Some r => <[i := Some r]> values
  | None => values
  end.

Definition allSettled (promises : list settled) (order : list nat) : option (list settled) :=
  mapM id (foldl (fill promises) (replicate (length promises) None) order).

(** Lines 61 to 66: [results.forEach(...)] into [newStats = {}]. *)
Definition merge_one (newStats : gmap string jsval) (result : settled) : gmap string jsval :=
  match result with
  | Fulfilled value => if truthy value then Object_assign newStats value else newStats
  | Rejected _ => newStats
  end.

Definition newStats (results : list settled) : gmap string jsval :=
  foldl merge_one ∅ results.

Definition method_not_allowed : Response :=
  json 405 (JObj [("error", JStr "Method Not Allowed. Use POST.")]).

Definition missing_token : Response :=
  json 401 (JObj [("error", JStr "Unauthorized: Missing token.")]).

Definition invalid_token : Response :=
  json 403 (JObj [("error", JStr "Unauthorized: Invalid token.")]).

Definition not_found : Response :=
  json 404 (JObj [("error", JStr "User profile not found.")]).

Definition success : Response :=
  json 200 (JObj [("success", JBool true); ("message", JStr "Stats updated successfully.")]).

Definition internal_error : Response :=
  json 500 (JObj [("error", JStr "An internal error occurred while refreshing stats.")]).

(** Lines 51 to 66, the fan-out, the join and the merge: the calls
    started, and [newStats] once the join resolves. *)
Definition scrape (f : source_file) (w : World) (order : list nat) (userData : UserData)
  : option (gmap string jsval) * list event :=
  let promises := scrapePromises f w userData in
  (newStats <$> allSettled (map (fun call => settle call.2) promises) order,
   concat (promises.*1)).

(** Lines 51 to 79, what the [try] block does with the fields of the
    profile: fan-out, join, merge, then the write and the 200; a write
    that throws is caught at line 76. *)
Definition scrape_and_save (f : source_file) (w : World) (order : list nat) (uid : string)
  (userData : UserData) : option Response * list event :=
  let joined := scrape f w order userData in
  match joined.1 with
  | None => (None, joined.2)
  | Some stats =>
      (Some (if users_update w uid stats then success else internal_error),
       (joined.2 ++ [DocUpdate uid stats])%list)
  end.

(** The [try] block of lines 42 to 79 with its [catch]: any throw inside
    is the 500 response.  [docSnap.exists()] of line 46 calls a boolean:
    it throws whatever the snapshot, and the rest of the block, which is
    written out below, is not reached. *)
Definition refresh (f : source_file) (w : World) (order : list nat) (uid : string)
  : option Response * list event :=
  match users_get w uid with
  | Failed _ => (Some internal_error, [DocGet uid])
  | Served docSnap =>
      match call_value (snapshot_exists docSnap) with
      | Throw _ => (Some internal_error, [DocGet uid])
      | Normal present =>
          if negb (truthy present) then (Some not_found, [DocGet uid])
          else
            match docSnap with
            | None => (Some internal_error, [DocGet uid])   (* data() is undefined *)
            | Some userData =>
                let rest := scrape_and_save f w order uid userData in
                (rest.1, DocGet uid :: rest.2)
            end
      end
  end.

(** The response, if the join resolves, and the trace. *)
Definition handler (f : source_file) (w : World) (order : list nat) (request : Request)
  : option Response * list event :=
  if negb (String.eqb (method request) "POST") then (Some method_not_allowed, [])
  else
    match authorization request with
    | None => (Some missing_token, [])
    | Some authorization =>
        if String.eqb authorization "" || negb (String.prefix "Bearer " authorization)
        then (Some missing_token, [])
        else
          let idToken := split "Bearer " authorization !! 1%nat in
          match idToken with
          | None => (Some invalid_token, [])   (* verifyIdToken(undefined) rejects *)
          | Some idToken =>
              match verifyIdToken w idToken with
              | None => (Some invalid_token, [VerifyIdToken idToken])
              | Some uid =>
                  let rest := refresh f w order uid in
                  (rest.1, VerifyIdToken idToken :: rest.2)
              end
          end
    end.

End Refresh.

(** ** Vocabulary of the properties *)

(** The four adapters, in the order in which the refresh starts them. *)
Definition platforms : list platform := [LeetCode; CodeChef; HackerRank; Gfg].

Definition username_of (userData : UserData) (p : platform) : jsval :=
  match p with
  | LeetCode => leetcode_username userData
  | CodeChef => codechef_username userData
  | HackerRank => hackerrank_username userData
  | Gfg => gfg_username userData
  end.

(** A platform is configured when the profile has a username for it. *)
Definition configured (userData : UserData) (p : platform) : bool :=
  truthy (username_of userData p).

Definition started (userData : UserData) : list platform :=
  List.filter (configured userData) platforms.

(** The adapter of a platform in a revision of the refresh endpoint. *)
Definition getStats (f : Refresh.source_file) (p : platform) : World -> jsval -> async jsval :=
  match p with
  | LeetCode => Refresh.getLeetCodeStats f
  | CodeChef => Refresh.getCodeChefStats f
  | HackerRank => Refresh.getHackerRankStats f
  | Gfg => Refresh.getGfgStats f
  end.

(** The terminal state of the call for platform [p]. *)
Definition outcome (f : Refresh.source_file) (w : World) (userData : UserData) (p : platform)
  : Refresh.settled :=
  Refresh.settle (getStats f p w (username_of userData p)).2.

(** The terminal states of the started calls, in input order. *)
Definition outcomes (f : Refresh.source_file) (w : World) (userData : UserData)
  : list Refresh.settled :=
  map (fun call => Refresh.settle call.2) (Refresh.scrapePromises f w userData).

(** An adapter call succeeded when its promise is fulfilled with a record;
    it failed when it is rejected or fulfilled with [null]. *)
Definition succeeded (r : Refresh.settled) : bool :=
  match r with
  | Refresh.Fulfilled value => truthy value
  | Refresh.Rejected _ => false
  end.

(** What the promise of the adapter of [p] can settle with: a rejection,
    [null], or an object with the one key of [p]. *)
Inductive keyed (p : platform) : Refresh.settled -> Prop :=
| keyed_rejected e : keyed p (Refresh.Rejected e)
| keyed_null : keyed p (Refresh.Fulfilled JNull)
| keyed_record r : keyed p (Refresh.Fulfilled (JObj [(key p, r)])).

(** A completion order of [n] started calls: each index once. *)
Definition completion_order (n : nat) (order : list nat) : Prop :=
  order ≡ₚ seq 0 n.

(** The Authorization header is absent or does not carry a Bearer token. *)
Definition lacks_bearer (request : Refresh.Request) : Prop :=
  match Refresh.authorization request with
  | None => True
  | Some a => String.prefix "Bearer " a = false
  end.

(** The credential of a header that carries one. *)
Definition bearer_token (request : Refresh.Request) : option string :=
  match Refresh.authorization request with
  | None => None
  | Some a => if String.prefix "Bearer " a then split "Bearer " a !! 1%nat else None
  end.

(** The adapter of a platform in the lookup endpoint, and the names the
    lookup supports. *)
Definition lookup_adapter (p : platform) : World -> jsval -> async jsval :=
  match p with
  | LeetCode => GetScore.getLeetCodeStats
  | CodeChef => GetScore.getCodeChefStats
  | HackerRank => GetScore.getHackerRankStats
  | Gfg => GetScore.getGfgStats
  end.

Definition supported : list string := ["leetcode"; "codechef"; "hackerrank"; "gfg"].

(** An entry of the submission list as the lookup query names its fields,
    and a non-error payload around a list of entries. *)
Definition entry (e : string * jsval) : jsval :=
  JObj [("difficulty", JStr e.1); ("count", e.2)].

(** The count of the first entry with a label, [0] for none or for a
    falsy count. *)
Definition count_of (label : string) (entries : list (string * jsval)) : jsval :=
  match List.find (fun e => String.eqb e.1 label) entries with
  | Some e => js_or e.2 (JNum 0)
  | None => JNum 0
  end.

Definition leetcode_of (entries : list (string * jsval)) : jsval :=
  JObj [("leetcode", JObj [("problems_solved", count_of "All" entries);
                           ("Easy", count_of "Easy" entries);
                           ("Medium", count_of "Medium" entries);
                           ("Hard", count_of "Hard" entries)])].

(** ** A worked request *)

(** The end-to-end example: the profile has [alice] on LeetCode and [bob]
    on CodeChef; LeetCode answers with 120 solved (80, 35, 5), CodeChef
    does not answer.  The entries carry their fields under the names that
    the query of the refresh gives them, [d] and [c]. *)
Definition sample_entry (label : string) (n : Z) : jsval :=
  JObj [("d", JStr label); ("c", JNum n)].

Definition submissions (acSubmissionNum : jsval) : jsval :=
  JObj [("data", JObj [("matchedUser", JObj [("submitStats",
    JObj [("acSubmissionNum", acSubmissionNum)])])])].

Definition sample_payload : jsval :=
  submissions (JArr [sample_entry "All" 120; sample_entry "Easy" 80;
                     sample_entry "Medium" 35; sample_entry "Hard" 5]).

Definition sample_profile : UserData :=
  {| leetcode_username := JStr "alice";
     codechef_username := JStr "bob";
     hackerrank_username := JUndefined;
     gfg_username := JStr "" |}.

Definition sample_world : World :=
  {| verifyIdToken := fun t => if String.eqb t "token-1" then Some "uid-1" else None;
     users_get := fun uid => if String.eqb uid "uid-1" then Served (Some sample_profile)
                             else Served None;
     users_update := fun _ _ => true;
     leetcode_graphql := fun _ => Served sample_payload;
     codechef_profile := fun _ => Failed "timeout of 0ms exceeded";
     hackerrank_profile := fun _ => Failed "Request failed with status code 404";
     gfg_profile := fun _ => Failed "Request failed with status code 404";
     unicode_toLowerCase := fun s => s |}.

(** The same, with a profile store that takes no write. *)
Definition readonly_world : World :=
  {| verifyIdToken := verifyIdToken sample_world;
     users_get := users_get sample_world;
     users_update := fun _ _ => false;
     leetcode_graphql := leetcode_graphql sample_world;
     codechef_profile := codechef_profile sample_world;
     hackerrank_profile := hackerrank_profile sample_world;
     gfg_profile := gfg_profile sample_world;
     unicode_toLowerCase := unicode_toLowerCase sample_world |}.

Definition empty_profile : UserData :=
  {| leetcode_username := JUndefined;
     codechef_username := JUndefined;
     hackerrank_username := JUndefined;
     gfg_username := JUndefined |}.

(** A world in which every upstream site is down; [token-2] is a user
    with nothing configured, [token-3] a user without a profile. *)
Definition dark_world : World :=
  {| verifyIdToken := fun t => if String.eqb t "token-1" then Some "uid-1"
                               else if String.eqb t "token-2" then Some "uid-2"
                               else if String.eqb t "token-3" then Some "uid-3" else None;
     users_get := fun uid => if String.eqb uid "uid-1" then Served (Some sample_profile)
                             else if String.eqb uid "uid-2" then Served (Some empty_profile)
                             else Served None;
     users_update := fun _ _ => true;
     leetcode_graphql := fun _ => Failed "ECONNREFUSED";
     codechef_profile := fun _ => Failed "ECONNREFUSED";
     hackerrank_profile := fun _ => Failed "ECONNREFUSED";
     gfg_profile := fun _ => Failed "ECONNREFUSED";
     unicode_toLowerCase := fun s => s |}.

(** For the lookup: [alice] has solved 120 problems, none of them hard
    (the list has no Hard entry); any other user is unknown to LeetCode,
    which says so in an error-shaped payload. *)
Definition alice_entries : list (string * jsval) :=
  [("Easy", JNum 80); ("All", JNum 120); ("Medium", JNum 40)].

Definition unknown_user_payload : jsval :=
  JObj [("errors", JArr [JObj [("message", JStr "That user does not exist.")]]);
        ("data", JObj [("matchedUser", JNull)])].

Definition lookup_world : World :=
  {| verifyIdToken := fun _ => None;
     users_get := fun _ => Served None;
     users_update := fun _ _ => false;
     leetcode_graphql := fun u =>
       Served (if strict_eq_str u "alice" then submissions (JArr (map entry alice_entries))
               else unknown_user_payload);
     codechef_profile := fun _ => Failed "Request failed with status code 404";
     hackerrank_profile := fun _ => Failed "Request failed with status code 404";
     gfg_profile := fun _ => Failed "Request failed with status code 404";
     unicode_toLowerCase := fun s => s |}.

Definition lookup (platform username : string) : GetScore.Request :=
  {| GetScore.query_platform := JStr platform; GetScore.query_username := JStr username |}.

(** A platform name written with the Kelvin sign, U+212A (three bytes in
    UTF-8), which [toLowerCase()] turns into the letter k; and a world
    with that entry of the case tables, in which HackerRank serves a page
    with two badges. *)
Definition kelvin_sign : string :=
  String (ascii_of_nat 226) (String (ascii_of_nat 132) (String (ascii_of_nat 170) "")).

Definition kelvin_name : string := "hac" +:+ kelvin_sign +:+ "errank".

Definition kelvin_world : World :=
  {| verifyIdToken := fun _ => None;
     users_get := fun _ => Served None;
     users_update := fun _ _ => false;
     leetcode_graphql := fun _ => Failed "ECONNREFUSED";
     codechef_profile := fun _ => Failed "ECONNREFUSED";
     hackerrank_profile := fun _ => Served (Read {| hacker_badges := 2 |});
     gfg_profile := fun _ => Served (Unreadable "TypeError: cheerio.load() expects a string");
     unicode_toLowerCase := fun s =>
       if String.eqb s kelvin_name then "hackerrank" else s |}.

(** A profile with a username for the platforms of [cfg] only, and a
    world in which the sites of [up] answer and the others are down. *)
Definition profile_of (cfg : platform -> bool) : UserData :=
  {| leetcode_username := if cfg LeetCode then JStr "alice" else JUndefined;
     codechef_username := if cfg CodeChef then JStr "alice" else JStr "";
     hackerrank_username := if cfg HackerRank then JStr "alice" else JNull;
     gfg_username := if cfg Gfg then JStr "alice" else JUndefined |}.

Definition world_of (up : platform -> bool) : World :=
  {| verifyIdToken := verifyIdToken sample_world;
     users_get := users_get sample_world;
     users_update := users_update sample_world;
     leetcode_graphql := fun _ =>
       if up LeetCode then Served sample_payload else Failed "ECONNREFUSED";
     codechef_profile := fun _ =>
       if up CodeChef
       then Served (Read {| cc_problems_solved := fun _ => JNum 310;
                            cc_contest_rating := fun _ => JNum 1650;
                            cc_stars := "3 Star";
                            cc_contests_participated := fun _ => JNum 12 |})
       else Failed "ECONNREFUSED";
     hackerrank_profile := fun _ =>
       if up HackerRank then Served (Read {| hacker_badges := 4 |}) else Failed "ECONNREFUSED";
     gfg_profile := fun _ =>
       if up Gfg
       then Served (Read {| gfg_score_card := fun _ => JNum 57;
                            gfg_script := SubmissionCounts (JNum 30) (JNum 20) (JNum 7) |})
       else Failed "ECONNREFUSED";
     unicode_toLowerCase := fun s => s |}.

Definition sample_request : Refresh.Request :=
  {| Refresh.method := "POST"; Refresh.authorization := Some "Bearer token-1" |}.

Definition post (authorization : option string) : Refresh.Request :=
  {| Refresh.method := "POST"; Refresh.authorization := authorization |}.

Definition get_request : Refresh.Request :=
  {| Refresh.method := "GET"; Refresh.authorization := None |}.

(** The status codes that the contract of the refresh endpoint lists. *)
Definition listed_statuses : list Z := [200; 401; 403; 404; 500].

Definition sample_record : jsval :=
  JObj [("problems_solved", JNum 120); ("Easy", JNum 80); ("Medium", JNum 35); ("Hard", JNum 5)].

(** ** Vocabulary for the rest of the code *)

(** [sep] occurs in [s]. *)
Fixpoint occurs (sep s : string) : bool :=
  String.prefix sep s ||
  match s with
  | EmptyString => false
  | String _ rest => occurs sep rest
  end.

(** The status codes of the two endpoints. *)
Definition refresh_statuses : list Z := [200; 401; 403; 404; 405; 500].
Definition lookup_statuses : list Z := [200; 400; 500].

(** The adapter calls of a trace, and the documents it touches. *)
Definition call_of (e : event) : option (platform * jsval) :=
  match e with
  | HttpCall p u => Some (p, u)
  | _ => None
  end.

Definition calls_of (trace : list event) : list (platform * jsval) := omap call_of trace.

Definition document_of (e : event) : option string :=
  match e with
  | DocGet uid | DocUpdate uid _ => Some uid
  | _ => None
  end.

Definition documents_of (trace : list event) : list string := omap document_of trace.

(** The error of [cheerio.load] on the body that a scraped site serves
    for a username, if it throws on it. *)
Definition load_error {A} (r : fetched (scraped A)) : option string :=
  match r with
  | Served (Unreadable e) => Some e
  | _ => None
  end.

Definition unreadable (w : World) (p : platform) (username : jsval) : option string :=
  match p with
  | LeetCode => None
  | CodeChef => load_error (codechef_profile w username)
  | HackerRank => load_error (hackerrank_profile w username)
  | Gfg => load_error (gfg_profile w username)
  end.



(** The total under [gfg] of an aggregate. *)
Definition own_total (stats : gmap string jsval) : option jsval :=
  match stats !! "gfg" with
  | Some (JObj fields) => Some (own fields "totalProblemsSolved")
  | _ => None
  end.

(** A bucket of the LeetCode record is a truthy count or the number 0. *)
Definition is_bucket (v : jsval) : Prop := truthy v = true \/ v = JNum 0.

(** A profile and a world for a GeeksforGeeks page whose script does not
    parse. *)
Definition gfg_only : UserData :=
  {| leetcode_username := JUndefined;
     codechef_username := JUndefined;
     hackerrank_username := JUndefined;
     gfg_username := JStr "carol" |}.

Definition broken_world : World :=
  {| verifyIdToken := verifyIdToken sample_world;
     users_get := fun _ => Served (Some gfg_only);
     users_update := users_update sample_world;
     leetcode_graphql := fun _ => Served unknown_user_payload;
     codechef_profile := codechef_profile sample_world;
     hackerrank_profile := hackerrank_profile sample_world;
     gfg_profile := fun _ =>
       Served (Read {| gfg_score_card := fun _ => JNaN;
                       gfg_script := BrokenProfileData "SyntaxError: Unexpected token" |});
     unicode_toLowerCase := unicode_toLowerCase sample_world |}.

(** A world in which the score card of the GeeksforGeeks page reads
    [0x1F]: 31 to [parseInt(text)], 0 to [parseInt(text, 10)]. *)
Definition hex_score_card (r : radix) : jsval :=
  match r with
  | NoRadix => JNum 31
  | Radix10 => JNum 0
  end.

Definition hex_world : World :=
  {| verifyIdToken := verifyIdToken sample_world;
     users_get := fun _ => Served (Some gfg_only);
     users_update := users_update sample_world;
     leetcode_graphql := leetcode_graphql sample_world;
     codechef_profile := codechef_profile sample_world;
     hackerrank_profile := hackerrank_profile sample_world;
     gfg_profile := fun _ =>
       Served (Read {| gfg_score_card := hex_score_card;
                       gfg_script := SubmissionCounts (JNum 3) (JNum 2) (JNum 1) |});
     unicode_toLowerCase := unicode_toLowerCase sample_world |}.

(** The score card of a served GeeksforGeeks page reads the same with
    and without radix. *)
Definition score_card_plain (w : World) (username : jsval) : Prop :=
  forall page, gfg_profile w username = Served (Read page) ->
               gfg_score_card page NoRadix = gfg_score_card page Radix10.

(** A world whose profile store cannot be read. *)
Definition offline_world : World :=
  {| verifyIdToken := verifyIdToken sample_world;
     users_get := fun _ => Failed "UNAVAILABLE";
     users_update := users_update sample_world;
     leetcode_graphql := leetcode_graphql sample_world;
     codechef_profile := codechef_profile sample_world;
     hackerrank_profile := hackerrank_profile sample_world;
     gfg_profile := gfg_profile sample_world;
     unicode_toLowerCase := unicode_toLowerCase sample_world |}.

(** ** The JavaScript layer *)

(** An element that differs from every element of an explicit list. *)
Ltac not_listed :=
  let Hin := fresh "Hin" in
  intros Hin;
  repeat (apply elem_of_cons in Hin as [Hin|Hin]; [discriminate Hin|]);
  by apply elem_of_nil in Hin.

Lemma split_go_nonempty sep s : forall skip cur, split_go sep skip cur s <> [].
Proof.
  induction s as [|c s IH]; intros skip cur; cbn [split_go]; [done|].
  destruct skip; [|apply IH].
  destruct (String.prefix sep (String c s)); [done|apply IH].
Qed.

Lemma prefix_String c p s :
  String.prefix (String c p) s = true -> exists r, s = String c r /\ String.prefix p r = true.
Proof.
  destruct s as [|c' r]; [discriminate|].
  change (String.prefix (String c p) (String c' r))
    with (if ascii_dec c c' then String.prefix p r else false).
  destruct (ascii_dec c c') as [<-|]; [|discriminate].
  intros H. by exists r.
Qed.

Lemma prefix_Bearer a :
  String.prefix "Bearer " a = true -> exists r, a = "Bearer " +:+ r.
Proof.
  intros H.
  do 7 (apply prefix_String in H as (? & -> & H)).
  by eexists.
Qed.

Lemma split_go_skip sep p : forall cur r,
  split_go sep (String.length p) cur (p +:+ r) = split_go sep 0 cur r.
Proof.
  induction p as [|c p IH]; intros cur r; [done|].
  change (String c p +:+ r) with (String c (p +:+ r)).
  cbn [String.length split_go]. apply IH.
Qed.

Lemma prefix_app sep r : String.prefix sep (sep +:+ r) = true.
Proof.
  induction sep as [|c sep IH]; [by destruct r|].
  change (String c sep +:+ r) with (String c (sep +:+ r)).
  change (String.prefix (String c sep) (String c (sep +:+ r)))
    with (if ascii_dec c c then String.prefix sep (sep +:+ r) else false).
  by destruct (ascii_dec c c).
Qed.

(** A string that begins with the separator splits into the empty piece
    and the pieces of the rest. *)
Lemma split_sep_first c sep r :
  split (String c sep) (String c sep +:+ r) = "" :: split_go (String c sep) 0 "" r.
Proof.
  unfold split.
  change (String c sep +:+ r) with (String c (sep +:+ r)) at 1.
  cbn [split_go].
  change (String c (sep +:+ r)) with (String c sep +:+ r).
  rewrite prefix_app. f_equal.
  cbn [String.length]. rewrite Nat.sub_1_r. cbn [Nat.pred].
  apply split_go_skip.
Qed.

(** Under the guard of line 27, [authorization.split('Bearer ')[1]] is a
    string. *)
Lemma bearer_has_token a :
  String.prefix "Bearer " a = true -> exists t, split "Bearer " a !! 1%nat = Some t.
Proof.
  intros [r ->]%prefix_Bearer. rewrite split_sep_first.
  destruct (split_go "Bearer " 0 "" r) as [|t l] eqn:E.
  - by apply split_go_nonempty in E.
  - by exists t.
Qed.

(** ** The join *)

Lemma fill_length promises values i :
  length (Refresh.fill promises values i) = length values.
Proof.
  unfold Refresh.fill. destruct (promises !! i); [apply length_insert|done].
Qed.

Lemma foldl_fill_lookup promises order : forall values j,
  length values = length promises ->
  foldl (Refresh.fill promises) values order !! j =
    if decide (j ∈ order) then Some <$> promises !! j else values !! j.
Proof.
  induction order as [|i order IH]; intros values j Hlen; cbn [foldl].
  { destruct (decide (j ∈ [])) as [Hin|]; [by apply elem_of_nil in Hin|done]. }
  rewrite IH by (by rewrite fill_length).
  destruct (decide (j ∈ order)) as [Hin|Hnin].
  { rewrite decide_True; [done|by right]. }
  destruct (decide (j = i)) as [->|Hne].
  - rewrite decide_True by left.
    unfold Refresh.fill. destruct (promises !! i) as [r|] eqn:E.
    + rewrite list_lookup_insert_eq; [done|].
      rewrite Hlen. by eapply lookup_lt_Some.
    + simpl. apply lookup_ge_None. rewrite Hlen. by apply lookup_ge_None.
  - rewrite decide_False by (intros [?|?]%elem_of_cons; done).
    unfold Refresh.fill. destruct (promises !! i); [|done].
    by rewrite list_lookup_insert_ne.
Qed.

(** Whatever the order in which the started calls settle, the join
    resolves with their terminal states in input order. *)
Lemma allSettled_resolves promises order :
  completion_order (length promises) order ->
  Refresh.allSettled promises order = Some promises.
Proof.
  intros Hperm. unfold Refresh.allSettled.
  replace (foldl (Refresh.fill promises) (replicate (length promises) None) order)
    with (Some <$> promises); [by apply mapM_fmap_Some|].
  apply list_eq. intros j.
  rewrite foldl_fill_lookup by apply length_replicate.
  rewrite list_lookup_fmap.
  case_decide as Hin; [done|].
  destruct (promises !! j) as [r|] eqn:E; simpl.
  - exfalso. apply Hin. unfold completion_order in Hperm. rewrite Hperm.
    apply elem_of_seq. apply lookup_lt_Some in E. lia.
  - destruct (replicate (length promises) None !! j) as [o|] eqn:E'; [|done].
    apply lookup_lt_Some in E'. rewrite length_replicate in E'.
    apply lookup_ge_None in E. lia.
Qed.

(** With no call started the join resolves at once. *)
Lemma allSettled_nil order : Refresh.allSettled [] order = Some [].
Proof.
  unfold Refresh.allSettled. simpl.
  replace (foldl (Refresh.fill []) [] order) with (@nil (option Refresh.settled)); [done|].
  induction order as [|i order IH]; [done|]. simpl.
  unfold Refresh.fill at 2. by rewrite lookup_nil.
Qed.

(** ** The adapters of the refresh *)

Lemma key_inj p q : key p = key q -> p = q.
Proof. by destruct p, q. Qed.

Lemma leetcode_record_keyed dk ck stats :
  keyed LeetCode (Refresh.settle (leetcode_record dk ck stats)).
Proof.
  unfold leetcode_record.
  destruct (bucket dk ck "All" stats); [|constructor]; simpl.
  destruct (bucket dk ck "Easy" stats); [|constructor]; simpl.
  destruct (bucket dk ck "Medium" stats); [|constructor]; simpl.
  destruct (bucket dk ck "Hard" stats); [|constructor]; simpl.
  apply (keyed_record LeetCode).
Qed.

Lemma leetcode_body_keyed data :
  keyed LeetCode (Refresh.settle
    (errors ← prop data "errors";
     if truthy errors then Normal JNull
     else stats ← acSubmissionNum data; leetcode_record "d" "c" stats)).
Proof.
  destruct (prop data "errors") as [errors|]; [|constructor]; simpl.
  destruct (truthy errors); [constructor|].
  destruct (acSubmissionNum data) as [stats|]; [|constructor]; simpl.
  apply leetcode_record_keyed.
Qed.

Lemma or_null_keyed p c :
  keyed p (Refresh.settle c) -> keyed p (Refresh.settle (Part000.or_null c)).
Proof. destruct c; [done|constructor]. Qed.

(** Each adapter of the refresh starts one request and settles with
    nothing or with a record under its own key. *)
Lemma getStats_started f p w u : (getStats f p w u).1 = [HttpCall p u].
Proof. by destruct f, p. Qed.

Lemma getStats_keyed f p w u : keyed p (Refresh.settle (getStats f p w u).2).
Proof.
  destruct f, p; cbn -[leetcode_record]; try apply or_null_keyed.
  - destruct (leetcode_graphql w u); [constructor|apply leetcode_body_keyed].
  - destruct (codechef_profile w u) as [|[|page]];
      [constructor|constructor|apply (keyed_record CodeChef)].
  - destruct (hackerrank_profile w u) as [|[|page]];
      [constructor|constructor|apply (keyed_record HackerRank)].
  - destruct (gfg_profile w u) as [|[|page]]; [constructor|constructor|].
    destruct (gfg_script page); simpl; try constructor; apply (keyed_record Gfg).
  - destruct (leetcode_graphql w u); [constructor|apply leetcode_body_keyed].
  - destruct (codechef_profile w u) as [|[|page]];
      [constructor|constructor|apply (keyed_record CodeChef)].
  - destruct (hackerrank_profile w u) as [|[|page]];
      [constructor|constructor|apply (keyed_record HackerRank)].
  - destruct (gfg_profile w u) as [|[|page]]; [constructor|constructor|].
    destruct (gfg_script page); apply (keyed_record Gfg).
Qed.

Lemma outcome_keyed f w userData p : keyed p (outcome f w userData p).
Proof. apply getStats_keyed. Qed.

Lemma keyed_succeeded p r :
  keyed p r -> succeeded r = true -> exists v, r = Refresh.Fulfilled (JObj [(key p, v)]).
Proof. destruct 1; [done|done|by eexists]. Qed.

Lemma keyed_record_key p k v :
  keyed p (Refresh.Fulfilled (JObj [(k, v)])) -> k = key p.
Proof. by inversion 1. Qed.

Lemma elem_of_started userData p : p ∈ started userData <-> configured userData p = true.
Proof.
  unfold started. rewrite list_elem_of_In, List.filter_In, <- list_elem_of_In.
  split; [by intros [_ ?]|]. intros H. split; [|done].
  destruct p; unfold platforms; set_solver.
Qed.

Lemma scrapePromises_started f w userData :
  Refresh.scrapePromises f w userData
  = map (fun p => getStats f p w (username_of userData p)) (started userData).
Proof.
  unfold Refresh.scrapePromises, started, platforms, configured. simpl.
  destruct (truthy (leetcode_username userData)), (truthy (codechef_username userData)),
    (truthy (hackerrank_username userData)), (truthy (gfg_username userData)); reflexivity.
Qed.

Lemma outcomes_started f w userData :
  outcomes f w userData = map (outcome f w userData) (started userData).
Proof. unfold outcomes. rewrite scrapePromises_started, List.map_map. done. Qed.

Lemma requests_started f w userData :
  concat (Refresh.scrapePromises f w userData).*1
  = map (fun p => HttpCall p (username_of userData p)) (started userData).
Proof.
  rewrite scrapePromises_started.
  induction (started userData) as [|p ps IH]; [done|].
  simpl. rewrite getStats_started. simpl. f_equal. exact IH.
Qed.

(** ** The merge *)

(** None of the four keys is [__proto__]: a record is written under the
    key of its adapter. *)
Lemma merge_one_record p m v :
  Refresh.merge_one m (Refresh.Fulfilled (JObj [(key p, v)])) = <[key p := v]> m.
Proof. by destruct p. Qed.

Lemma merge_one_keyed p m r k v :
  keyed p r ->
  Refresh.merge_one m r !! k = Some v <->
  r = Refresh.Fulfilled (JObj [(k, v)]) \/
  (m !! k = Some v /\ forall v', r <> Refresh.Fulfilled (JObj [(k, v')])).
Proof.
  destruct 1 as [e| |x].
  - split; [by right|]. by intros [|[]].
  - split; [by right|]. by intros [|[]].
  - rewrite merge_one_record, lookup_insert.
    case_decide as Hk; simpl.
    + subst k. split.
      * intros [= ->]. by left.
      * intros [[= ->]|[_ Hne]]; [done|]. by destruct (Hne x).
    + split.
      * intros Hm. right. split; [done|]. by intros v' [= ? ?].
      * intros [[= ? ?]|[Hm _]]; done.
Qed.

Section merge.
Variable g : platform -> Refresh.settled.
Hypothesis g_keyed : forall p, keyed p (g p).

(** The aggregate of the terminal states of any list of adapters holds,
    under each key, the record of the adapter of that key when it is in
    the list and succeeded, and nothing else. *)
Lemma newStats_lookup ps k v :
  Refresh.newStats (map g ps) !! k = Some v <->
  exists p, p ∈ ps /\ g p = Refresh.Fulfilled (JObj [(k, v)]).
Proof.
  unfold Refresh.newStats.
  induction ps as [|p ps IH] using rev_ind; simpl.
  { rewrite lookup_empty. split; [done|]. intros (p & Hp & _). by apply elem_of_nil in Hp. }
  rewrite List.map_app, foldl_app. simpl.
  rewrite (merge_one_keyed p) by apply g_keyed. rewrite IH. split.
  - intros [Hp|[(q & Hq & Hg) _]].
    + exists p. split; [|done]. apply elem_of_app. right. by left.
    + exists q. split; [|done]. apply elem_of_app. by left.
  - intros (q & [Hq|Hq%list_elem_of_singleton]%elem_of_app & Hg).
    + destruct (decide (q = p)) as [->|Hne]; [by left|].
      right. split; [by exists q|].
      intros v' Hp. apply Hne, key_inj.
      pose proof (g_keyed q) as Kq. rewrite Hg in Kq. apply keyed_record_key in Kq.
      pose proof (g_keyed p) as Kp. rewrite Hp in Kp. apply keyed_record_key in Kp.
      congruence.
    + subst q. by left.
Qed.

(** Two lists with the same adapters give the same aggregate. *)
Lemma newStats_same_set ps qs :
  (forall p, p ∈ ps <-> p ∈ qs) ->
  Refresh.newStats (map g ps) = Refresh.newStats (map g qs).
Proof.
  intros Hset. apply map_eq. intros k. apply option_eq. intros v.
  rewrite !newStats_lookup. by setoid_rewrite Hset.
Qed.

(** Going on with the fold only adds to the aggregate. *)
Lemma newStats_grows ps qs :
  Refresh.newStats (map g ps) ⊆ Refresh.newStats (map g (ps ++ qs)).
Proof.
  apply map_subseteq_spec. intros k v. rewrite !newStats_lookup.
  intros (p & Hp & Hg). exists p. split; [|done]. apply elem_of_app. by left.
Qed.

(** The aggregate is decided by which adapters of the list succeeded. *)
Lemma newStats_same_succeeded ps qs :
  (forall p, succeeded (g p) = true -> (p ∈ ps <-> p ∈ qs)) ->
  Refresh.newStats (map g ps) = Refresh.newStats (map g qs).
Proof.
  intros Hset. apply map_eq. intros k. apply option_eq. intros v.
  rewrite !newStats_lookup.
  split; intros (p & Hp & Hg); exists p; (split; [|done]); apply Hset; try done.
  all: by rewrite Hg.
Qed.

(** A list of terminal states that is a permutation of those of [ps] is
    the list of those of a permutation of [ps]. *)
Lemma outcomes_permuted rs ps :
  rs ≡ₚ map g ps -> exists qs, rs = map g qs /\ qs ≡ₚ ps.
Proof.
  intros (qs & -> & Hqs)%Permutation_map_inv. exists qs. split; [done|].
  by symmetry.
Qed.
End merge.

(** ** The gates of the refresh handler *)

Lemma handler_not_post f w order request :
  Refresh.method request <> "POST" ->
  Refresh.handler f w order request = (Some Refresh.method_not_allowed, []).
Proof.
  intros H. unfold Refresh.handler.
  by destruct (String.eqb_spec (Refresh.method request) "POST").
Qed.

Lemma handler_lacks_bearer f w order request :
  Refresh.method request = "POST" -> lacks_bearer request ->
  Refresh.handler f w order request = (Some Refresh.missing_token, []).
Proof.
  intros Hm H. unfold Refresh.handler, lacks_bearer in *.
  rewrite Hm, String.eqb_refl. cbn [negb].
  destruct (Refresh.authorization request) as [a|]; [|done].
  rewrite H. cbn [negb]. by rewrite orb_true_r.
Qed.

Lemma bearer_token_inv request t :
  bearer_token request = Some t ->
  exists a, Refresh.authorization request = Some a /\
            String.prefix "Bearer " a = true /\ String.eqb a "" = false /\
            split "Bearer " a !! 1%nat = Some t.
Proof.
  unfold bearer_token. destruct (Refresh.authorization request) as [a|]; [|done].
  destruct (String.prefix "Bearer " a) eqn:Hp; [|done].
  intros Ht. exists a. repeat split; try done.
  apply prefix_Bearer in Hp as [r ->]. done.
Qed.

Lemma handler_bearer f w order request t :
  Refresh.method request = "POST" -> bearer_token request = Some t ->
  Refresh.handler f w order request =
    match verifyIdToken w t with
    | None => (Some Refresh.invalid_token, [VerifyIdToken t])
    | Some uid => ((Refresh.refresh f w order uid).1,
                   VerifyIdToken t :: (Refresh.refresh f w order uid).2)
    end.
Proof.
  intros Hm (a & Ha & Hp & He & Ht)%bearer_token_inv.
  unfold Refresh.handler. rewrite Hm, String.eqb_refl, Ha, He, Hp, Ht. done.
Qed.

(** The three ways through the gates of lines 22 to 29. *)
Lemma handler_gates request :
  Refresh.method request <> "POST" \/
  (Refresh.method request = "POST" /\ lacks_bearer request) \/
  (Refresh.method request = "POST" /\ exists t, bearer_token request = Some t).
Proof.
  destruct (String.eqb_spec (Refresh.method request) "POST") as [Hm|Hm]; [right|by left].
  unfold lacks_bearer, bearer_token.
  destruct (Refresh.authorization request) as [a|]; [|by left].
  destruct (String.prefix "Bearer " a) eqn:Hp; [right|by left].
  split; [done|]. by apply bearer_has_token.
Qed.

(** ** The try block *)

(** Line 46 calls the boolean [exists]: the call throws whatever the
    snapshot, so a read that comes back lands in the [catch] of line 76
    like one that throws. *)
Lemma refresh_throws f w order uid :
  Refresh.refresh f w order uid = (Some Refresh.internal_error, [DocGet uid]).
Proof. unfold Refresh.refresh. by destruct (users_get w uid). Qed.

Lemma handler_verified f w order request t uid :
  Refresh.method request = "POST" -> bearer_token request = Some t ->
  verifyIdToken w t = Some uid ->
  Refresh.handler f w order request =
    (Some Refresh.internal_error, [VerifyIdToken t; DocGet uid]).
Proof. intros Hm Ht Hv. by rewrite (handler_bearer _ _ _ _ t), Hv, refresh_throws. Qed.

(** Lines 51 to 66: the calls of the configured platforms are started,
    and once they have all settled the join resolves and the merge gives
    the aggregate of their terminal states. *)
Lemma scrape_started f w order userData :
  (Refresh.scrape f w order userData).2
  = map (fun p => HttpCall p (username_of userData p)) (started userData).
Proof. apply requests_started. Qed.

Lemma scrape_joined f w order userData :
  completion_order (length (started userData)) order ->
  Refresh.scrape f w order userData =
    (Some (Refresh.newStats (outcomes f w userData)),
     map (fun p => HttpCall p (username_of userData p)) (started userData)).
Proof.
  intros Horder. unfold Refresh.scrape. cbv zeta.
  rewrite requests_started. fold (outcomes f w userData).
  rewrite allSettled_resolves; [done|].
  by rewrite outcomes_started, length_map.
Qed.

Lemma scrape_and_save_joined f w order uid userData :
  completion_order (length (started userData)) order ->
  Refresh.scrape_and_save f w order uid userData =
    let stats := Refresh.newStats (outcomes f w userData) in
    (Some (if users_update w uid stats then Refresh.success else Refresh.internal_error),
     (map (fun p => HttpCall p (username_of userData p)) (started userData)
        ++ [DocUpdate uid stats])%list).
Proof.
  intros Horder. unfold Refresh.scrape_and_save. cbv zeta.
  by rewrite scrape_joined.
Qed.

(** A request of an adapter is not a write. *)
Lemma requests_no_update userData :
  Forall (fun e => is_update e = false)
    (map (fun p => HttpCall p (username_of userData p)) (started userData)).
Proof. apply Forall_forall. intros e [p [<- _]]%list_elem_of_In%List.in_map_iff. done. Qed.


(** ** What the trace tells *)

(** A verification in the trace is that of the credential of the header,
    on a POST request. *)
Lemma verified_in_trace f w order request t :
  VerifyIdToken t ∈ (Refresh.handler f w order request).2 ->
  Refresh.method request = "POST" /\ bearer_token request = Some t.
Proof.
  destruct (handler_gates request) as [H|[[Hm H]|[Hm [t' Ht']]]].
  - rewrite handler_not_post by done. by intros ?%elem_of_nil.
  - rewrite handler_lacks_bearer by done. by intros ?%elem_of_nil.
  - rewrite (handler_bearer _ _ _ _ t') by done.
    destruct (verifyIdToken w t') as [uid|]; cbn [snd].
    + rewrite refresh_throws. cbn [snd].
      intros [[= ->]|[=]%list_elem_of_singleton]%elem_of_cons. done.
    + by intros [= ->]%list_elem_of_singleton.
Qed.

(** Any other event is an event of the try block, which runs for the uid
    that the credential of a POST request verifies to. *)
Lemma handler_past_gates f w order request e :
  (forall t, e <> VerifyIdToken t) ->
  e ∈ (Refresh.handler f w order request).2 ->
  exists t uid,
    Refresh.method request = "POST" /\ bearer_token request = Some t /\
    verifyIdToken w t = Some uid /\
    e ∈ (Refresh.refresh f w order uid).2 /\
    Refresh.handler f w order request =
      ((Refresh.refresh f w order uid).1, VerifyIdToken t :: (Refresh.refresh f w order uid).2).
Proof.
  intros Hne.
  destruct (handler_gates request) as [H|[[Hm H]|[Hm [t Ht]]]].
  - rewrite handler_not_post by done. by intros ?%elem_of_nil.
  - rewrite handler_lacks_bearer by done. by intros ?%elem_of_nil.
  - rewrite (handler_bearer _ _ _ _ t) by done.
    destruct (verifyIdToken w t) as [uid|] eqn:Hv; cbn [snd].
    + intros [->|He]%elem_of_cons; [by destruct (Hne t)|].
      by exists t, uid.
    + intros ->%list_elem_of_singleton. by destruct (Hne t).
Qed.

Lemma not_configured_started userData :
  (forall p, configured userData p = false) -> started userData = [].
Proof.
  intros H. unfold started, platforms. simpl.
  by rewrite (H LeetCode), (H CodeChef), (H HackerRank), (H Gfg).
Qed.

(** The aggregate of a refresh: under each key, the record of the adapter
    of that key if it was started and succeeded. *)
Lemma aggregate_lookup f w userData k v :
  Refresh.newStats (outcomes f w userData) !! k = Some v <->
  exists p, configured userData p = true /\
            outcome f w userData p = Refresh.Fulfilled (JObj [(k, v)]).
Proof.
  rewrite outcomes_started, newStats_lookup by apply outcome_keyed.
  by setoid_rewrite elem_of_started.
Qed.

Lemma aggregate_keys f w userData k :
  k ∈ dom (Refresh.newStats (outcomes f w userData)) <->
  exists p, key p = k /\ configured userData p = true /\
            succeeded (outcome f w userData p) = true.
Proof.
  rewrite elem_of_dom. unfold is_Some. setoid_rewrite aggregate_lookup. split.
  - intros (v & p & Hc & Ho). exists p.
    pose proof (outcome_keyed f w userData p) as K. rewrite Ho in K.
    apply keyed_record_key in K. rewrite Ho. done.
  - intros (p & <- & Hc & Hs).
    destruct (keyed_succeeded p _ (outcome_keyed f w userData p) Hs) as [v Hv].
    by exists v, p.
Qed.

Lemma aggregate_empty f w userData :
  (forall p, configured userData p = true -> succeeded (outcome f w userData p) = false) ->
  Refresh.newStats (outcomes f w userData) = ∅.
Proof.
  intros H. apply map_eq. intros k. rewrite lookup_empty.
  apply eq_None_not_Some. intros [v (p & Hc & Ho)%aggregate_lookup].
  specialize (H p Hc). by rewrite Ho in H.
Qed.

(** Every subset of the platforms can be the configured one, and every
    subset of those can be the one whose calls succeed. *)
Lemma every_subset_arises f cfg up p :
  configured (profile_of cfg) p = cfg p /\
  succeeded (outcome f (world_of up) (profile_of cfg) p) = up p.
Proof.
  split.
  - destruct p; unfold configured, username_of, profile_of; cbn;
      by match goal with |- context [cfg ?q] => destruct (cfg q) end.
  - destruct f, p; unfold outcome, getStats, world_of; cbn;
      by match goal with |- context [up ?q] => destruct (up q) end.
Qed.

Lemma every_subset_aggregate f cfg up k :
  k ∈ dom (Refresh.newStats (outcomes f (world_of up) (profile_of cfg))) <->
  exists p, key p = k /\ cfg p = true /\ up p = true.
Proof.
  rewrite aggregate_keys. split; intros (p & Hk & Hc & Hs); exists p.
  - by rewrite <- (proj1 (every_subset_arises f cfg up p)),
                <- (proj2 (every_subset_arises f cfg up p)).
  - by rewrite (proj1 (every_subset_arises f cfg up p)),
               (proj2 (every_subset_arises f cfg up p)).
Qed.

(** The read of the profile in the trace: the request is a POST whose
    credential verified, and the read is all that follows. *)
Lemma loaded_in_trace f w order request uid :
  DocGet uid ∈ (Refresh.handler f w order request).2 ->
  exists t,
    Refresh.handler f w order request
    = (Some Refresh.internal_error, [VerifyIdToken t; DocGet uid]).
Proof.
  intros (t & uid' & Hm & Ht & Hv & He & _)%handler_past_gates; [|done].
  rewrite refresh_throws in He. cbn [snd] in He.
  apply list_elem_of_singleton in He as [= ->].
  exists t. by apply handler_verified.
Qed.

(** ** The refresh endpoint: gates *)

(** C10: a refresh request whose method is not POST is answered 405 before
    any authentication check, profile access or adapter call (the trace is
    empty), and 405 is not among the status codes the contract lists. *)
Theorem C10_method_gate f w order request :
  Refresh.method request <> "POST" ->
  status <$> (Refresh.handler f w order request).1 = Some 405 /\
  (Refresh.handler f w order request).2 = [] /\
  405 ∉ listed_statuses.
Proof.
  intros H. rewrite handler_not_post by done. repeat split.
  unfold listed_statuses. not_listed.
Qed.

Lemma C10_method_gate_witness :
  Refresh.method get_request <> "POST" /\
  status <$> (Refresh.handler Refresh.part_000 sample_world [] get_request).1 = Some 405 /\
  (Refresh.handler Refresh.part_000 sample_world [] get_request).2 = [] /\
  405 ∉ listed_statuses.
Proof.
  split; [discriminate|].
  apply (C10_method_gate Refresh.part_000 sample_world [] get_request). discriminate.
Defined.

(** C3, as stated, fails on a request that is not a POST: without an
    Authorization header the answer is 405, not 401. *)
Lemma C3_counterexample :
  lacks_bearer get_request /\
  status <$> (Refresh.handler Refresh.refresh_stats_js sample_world [] get_request).1 = Some 405 /\
  status <$> (Refresh.handler Refresh.refresh_stats_js sample_world [] get_request).1 <> Some 401.
Proof. repeat split. discriminate. Qed.

(** C3 (amended): for every POST refresh request, a header that is absent
    or does not carry a Bearer token is answered 401 and a credential that
    fails verification is answered 403; in both cases no profile read or
    write is in the trace.  For any request, a profile access in the trace
    comes after a credential that verified. *)
Theorem C3_auth_errors f w order request :
  Refresh.method request = "POST" ->
  (lacks_bearer request ->
     status <$> (Refresh.handler f w order request).1 = Some 401 /\
     Forall (fun e => is_profile_access e = false) (Refresh.handler f w order request).2) /\
  (forall t, bearer_token request = Some t -> verifyIdToken w t = None ->
     status <$> (Refresh.handler f w order request).1 = Some 403 /\
     Forall (fun e => is_profile_access e = false) (Refresh.handler f w order request).2) /\
  (forall e, e ∈ (Refresh.handler f w order request).2 -> is_profile_access e = true ->
     exists t uid, bearer_token request = Some t /\ verifyIdToken w t = Some uid).
Proof.
  intros Hm. split; [|split].
  - intros H. rewrite handler_lacks_bearer by done. by split.
  - intros t Ht Hv. rewrite (handler_bearer _ _ _ _ t), Hv by done.
    split; [done|]. by repeat constructor.
  - intros e He Hp.
    apply handler_past_gates in He as (t & uid & _ & Ht & Hv & _); [|by intros t ->].
    by exists t, uid.
Qed.

Lemma C3_auth_errors_witness :
  (Refresh.method (post None) = "POST" /\ lacks_bearer (post None) /\
   status <$> (Refresh.handler Refresh.refresh_stats_js sample_world [] (post None)).1 = Some 401) /\
  (Refresh.method (post (Some "Bearer stale")) = "POST" /\
   bearer_token (post (Some "Bearer stale")) = Some "stale" /\
   verifyIdToken sample_world "stale" = None /\
   status <$> (Refresh.handler Refresh.refresh_stats_js sample_world []
                 (post (Some "Bearer stale"))).1 = Some 403).
Proof.
  split.
  - split; [reflexivity|]. split; [exact I|].
    exact (proj1 (proj1 (C3_auth_errors Refresh.refresh_stats_js sample_world []
                           (post None) eq_refl) I)).
  - split; [reflexivity|]. split; [reflexivity|]. split; [reflexivity|].
    exact (proj1 (proj1 (proj2 (C3_auth_errors Refresh.refresh_stats_js sample_world []
                                  (post (Some "Bearer stale")) eq_refl))
                   "stale" eq_refl eq_refl)).
Defined.

(** ** The refresh endpoint: the profile *)

(** C4 (the code misses it): when the credential of a refresh request
    verifies and the verified identity has no stored profile, the guard
    of lines 46 to 48 is meant to answer 404.  The guard calls the
    boolean [exists] of the snapshot, the call throws, and the [catch]
    of line 76 answers 500; the read of the profile is the last thing
    the request does. *)
Theorem C4_profile_not_found f w order request t uid :
  VerifyIdToken t ∈ (Refresh.handler f w order request).2 ->
  verifyIdToken w t = Some uid ->
  users_get w uid = Served None ->
  status <$> (Refresh.handler f w order request).1 = Some 500 /\
  status <$> (Refresh.handler f w order request).1 <> Some 404 /\
  (Refresh.handler f w order request).2 = [VerifyIdToken t; DocGet uid].
Proof.
  intros [Hm Ht]%verified_in_trace Hv Hget.
  by rewrite (handler_verified _ _ _ _ t uid).
Qed.

Lemma C4_profile_not_found_witness :
  VerifyIdToken "token-3" ∈
    (Refresh.handler Refresh.part_000 dark_world [] (post (Some "Bearer token-3"))).2 /\
  verifyIdToken dark_world "token-3" = Some "uid-3" /\
  users_get dark_world "uid-3" = Served None /\
  status <$> (Refresh.handler Refresh.part_000 dark_world []
                (post (Some "Bearer token-3"))).1 = Some 500 /\
  status <$> (Refresh.handler Refresh.part_000 dark_world []
                (post (Some "Bearer token-3"))).1 <> Some 404 /\
  (Refresh.handler Refresh.part_000 dark_world [] (post (Some "Bearer token-3"))).2
    = [VerifyIdToken "token-3"; DocGet "uid-3"].
Proof.
  split; [vm_compute; apply list_elem_of_here|].
  split; [reflexivity|]. split; [reflexivity|].
  apply (C4_profile_not_found Refresh.part_000 dark_world [] (post (Some "Bearer token-3"))
           "token-3" "uid-3"); [vm_compute; apply list_elem_of_here|reflexivity|reflexivity].
Defined.

(** C5 (the code misses it): when the loaded profile of an authenticated
    refresh request has no username for any of the four platforms, lines
    51 to 79 start no adapter call, merge to the empty aggregate, write
    it, and answer 200 if the write succeeds.  The request does not get
    there: line 46 throws after the read, the answer is 500 and nothing
    is written. *)
Theorem C5_nothing_configured f w order request uid userData :
  DocGet uid ∈ (Refresh.handler f w order request).2 ->
  users_get w uid = Served (Some userData) ->
  (forall p, configured userData p = false) ->
  (status <$> (Refresh.handler f w order request).1 = Some 500 /\
   Forall (fun e => is_update e = false) (Refresh.handler f w order request).2) /\
  Refresh.scrapePromises f w userData = [] /\
  Refresh.scrape f w order userData = (Some ∅, []) /\
  Refresh.scrape_and_save f w order uid userData =
    (Some (if users_update w uid ∅ then Refresh.success else Refresh.internal_error),
     [DocUpdate uid ∅]).
Proof.
  intros [t Hh]%loaded_in_trace Hget Hnone.
  rewrite Hh. split; [split; [done|by repeat constructor]|].
  assert (Refresh.scrapePromises f w userData = []) as Hnil
    by (by rewrite scrapePromises_started, not_configured_started).
  assert (Refresh.scrape f w order userData = (Some ∅, [])) as Hscrape.
  { unfold Refresh.scrape. cbv zeta. rewrite Hnil. cbn [map]. by rewrite allSettled_nil. }
  split; [exact Hnil|]. split; [exact Hscrape|].
  unfold Refresh.scrape_and_save. cbv zeta. by rewrite Hscrape.
Qed.

Lemma C5_nothing_configured_witness :
  DocGet "uid-2" ∈
    (Refresh.handler Refresh.refresh_stats_js dark_world [] (post (Some "Bearer token-2"))).2 /\
  users_get dark_world "uid-2" = Served (Some empty_profile) /\
  (forall p, configured empty_profile p = false) /\
  status <$> (Refresh.handler Refresh.refresh_stats_js dark_world []
                (post (Some "Bearer token-2"))).1 = Some 500 /\
  Forall (fun e => is_update e = false)
    (Refresh.handler Refresh.refresh_stats_js dark_world [] (post (Some "Bearer token-2"))).2.
Proof.
  assert (forall p, configured empty_profile p = false) as Hnone by (by intros []).
  split; [vm_compute; apply list_elem_of_further, list_elem_of_here|].
  split; [reflexivity|]. split; [exact Hnone|].
  exact (proj1 (C5_nothing_configured Refresh.refresh_stats_js dark_world []
                  (post (Some "Bearer token-2")) "uid-2" empty_profile
                  ltac:(vm_compute; apply list_elem_of_further, list_elem_of_here)
                  eq_refl Hnone)).
Defined.

(** ** The refresh endpoint: fan-out, join and merge *)



(** The end-to-end example of the orchestration contract, in both
    revisions and in both completion orders: lines 51 to 79 write an
    aggregate with the LeetCode record and no [codechef] key and answer
    200; the request itself stops at line 46 with 500. *)
Example end_to_end f order :
  order = [0; 1]%nat \/ order = [1; 0]%nat ->
  Refresh.scrape_and_save f sample_world order "uid-1" sample_profile =
    (Some Refresh.success,
     [HttpCall LeetCode (JStr "alice"); HttpCall CodeChef (JStr "bob");
      DocUpdate "uid-1" {[ "leetcode" := sample_record ]}]) /\
  Refresh.handler f sample_world order sample_request =
    (Some Refresh.internal_error, [VerifyIdToken "token-1"; DocGet "uid-1"]).
Proof. by intros [-> | ->]; destruct f; vm_compute. Qed.

(** C6 (the code misses it): when every started adapter call fails, lines
    51 to 79 merge to the empty aggregate, write it, and answer 200 if
    the write succeeds: the failures stop at the join.  The request does
    not get there: line 46 throws after the read of the profile, the
    answer is 500, no call is started and nothing is written. *)
Theorem C6_all_adapters_fail f w order request uid userData :
  DocGet uid ∈ (Refresh.handler f w order request).2 ->
  users_get w uid = Served (Some userData) ->
  completion_order (length (started userData)) order ->
  (forall p, configured userData p = true -> succeeded (outcome f w userData p) = false) ->
  users_update w uid ∅ = true ->
  (status <$> (Refresh.handler f w order request).1 = Some 500 /\
   Forall (fun e => is_network_call e = false /\ is_update e = false)
     (Refresh.handler f w order request).2) /\
  Refresh.newStats (outcomes f w userData) = ∅ /\
  status <$> (Refresh.scrape_and_save f w order uid userData).1 = Some 200 /\
  last (Refresh.scrape_and_save f w order uid userData).2 = Some (DocUpdate uid ∅).
Proof.
  intros [t Hh]%loaded_in_trace Hget Horder Hfail Hwrite.
  rewrite Hh. split; [split; [done|by repeat constructor]|].
  rewrite scrape_and_save_joined by done. cbv zeta. cbn [fst snd].
  rewrite aggregate_empty, Hwrite by done. repeat split.
  by rewrite last_snoc.
Qed.

Lemma C6_all_adapters_fail_witness :
  DocGet "uid-1" ∈ (Refresh.handler Refresh.refresh_stats_js dark_world [1; 0]%nat
                      sample_request).2 /\
  users_get dark_world "uid-1" = Served (Some sample_profile) /\
  completion_order (length (started sample_profile)) [1; 0]%nat /\
  (forall p, configured sample_profile p = true ->
             succeeded (outcome Refresh.refresh_stats_js dark_world sample_profile p) = false) /\
  users_update dark_world "uid-1" ∅ = true /\
  status <$> (Refresh.handler Refresh.refresh_stats_js dark_world [1; 0]%nat
                sample_request).1 = Some 500 /\
  Forall (fun e => is_network_call e = false /\ is_update e = false)
    (Refresh.handler Refresh.refresh_stats_js dark_world [1; 0]%nat sample_request).2.
Proof.
  assert (completion_order (length (started sample_profile)) [1; 0]%nat) as H10
    by apply perm_swap.
  assert (forall p, configured sample_profile p = true ->
            succeeded (outcome Refresh.refresh_stats_js dark_world sample_profile p) = false)
    as Hfail by (by intros []).
  split; [vm_compute; apply list_elem_of_further, list_elem_of_here|].
  split; [reflexivity|]. split; [exact H10|]. split; [exact Hfail|]. split; [reflexivity|].
  exact (proj1 (C6_all_adapters_fail Refresh.refresh_stats_js dark_world [1; 0]%nat
                  sample_request "uid-1" sample_profile
                  ltac:(vm_compute; apply list_elem_of_further, list_elem_of_here)
                  eq_refl H10 Hfail eq_refl)).
Defined.



(** C2: the merge folds the terminal states of the started calls to the
    same aggregate in whatever order they are listed; it only adds to the
    aggregate as it goes; the aggregate holds the records of the adapters
    that succeeded and nothing else, and is decided by which adapters
    succeeded; the keys of the four adapters are pairwise different and a
    successful result has the one key of its adapter. *)
Theorem C2_merge_commutative f w userData rs1 rs2 :
  (rs1 ++ rs2)%list ≡ₚ outcomes f w userData ->
  Refresh.newStats (rs1 ++ rs2) = Refresh.newStats (outcomes f w userData) /\
  Refresh.newStats rs1 ⊆ Refresh.newStats (rs1 ++ rs2) /\
  (forall k v, Refresh.newStats (rs1 ++ rs2) !! k = Some v <->
     exists p, configured userData p = true /\
               outcome f w userData p = Refresh.Fulfilled (JObj [(k, v)])) /\
  (forall ps qs,
     (forall p, succeeded (outcome f w userData p) = true -> (p ∈ ps <-> p ∈ qs)) ->
     Refresh.newStats (map (outcome f w userData) ps)
     = Refresh.newStats (map (outcome f w userData) qs)) /\
  (forall p q, p <> q -> key p <> key q) /\
  (forall p, succeeded (outcome f w userData p) = true ->
     exists v, outcome f w userData p = Refresh.Fulfilled (JObj [(key p, v)])).
Proof.
  intros Hperm. rewrite outcomes_started in Hperm.
  apply outcomes_permuted in Hperm as (qs & Hrs & Hqs).
  assert (Refresh.newStats (rs1 ++ rs2) = Refresh.newStats (outcomes f w userData)) as Hsame.
  { rewrite Hrs, outcomes_started.
    apply newStats_same_set; [apply outcome_keyed|].
    intros p. by rewrite Hqs. }
  split; [exact Hsame|]. split; [|split; [|split; [|split]]].
  - symmetry in Hrs. apply List.map_eq_app in Hrs as (qs1 & qs2 & -> & <- & <-).
    rewrite <- List.map_app. apply newStats_grows, outcome_keyed.
  - intros k v. rewrite Hsame. apply aggregate_lookup.
  - intros ps' qs'. apply newStats_same_succeeded, outcome_keyed.
  - intros p q Hne Hk. by apply Hne, key_inj.
  - intros p. apply keyed_succeeded, outcome_keyed.
Qed.

Lemma C2_merge_commutative_witness :
  ([Refresh.Rejected "timeout of 0ms exceeded"] ++
   [Refresh.Fulfilled (JObj [("leetcode", sample_record)])])%list
    ≡ₚ outcomes Refresh.refresh_stats_js sample_world sample_profile /\
  Refresh.newStats ([Refresh.Rejected "timeout of 0ms exceeded"] ++
                    [Refresh.Fulfilled (JObj [("leetcode", sample_record)])])
  = Refresh.newStats (outcomes Refresh.refresh_stats_js sample_world sample_profile).
Proof.
  assert (([Refresh.Rejected "timeout of 0ms exceeded"] ++
           [Refresh.Fulfilled (JObj [("leetcode", sample_record)])])%list
          ≡ₚ outcomes Refresh.refresh_stats_js sample_world sample_profile) as Hperm
    by (vm_compute; apply perm_swap).
  split; [exact Hperm|].
  exact (proj1 (C2_merge_commutative Refresh.refresh_stats_js sample_world sample_profile
                  [Refresh.Rejected "timeout of 0ms exceeded"]
                  [Refresh.Fulfilled (JObj [("leetcode", sample_record)])] Hperm)).
Defined.

(** ** The lookup endpoint *)

Lemma lookup_missing w request :
  truthy (GetScore.query_platform request) = false \/
  truthy (GetScore.query_username request) = false ->
  GetScore.handler w request = (GetScore.bad_request, []).
Proof.
  intros H. unfold GetScore.handler.
  by destruct H as [-> | ->]; rewrite ?orb_true_r.
Qed.

Lemma lookup_tried w request :
  truthy (GetScore.query_platform request) = true ->
  truthy (GetScore.query_username request) = true ->
  GetScore.handler w request =
    let tried := GetScore.dispatch w (GetScore.query_platform request)
                   (GetScore.query_username request) in
    (match tried.2 with
     | Normal response => response
     | Throw _ => GetScore.failure (GetScore.query_platform request)
     end, tried.1).
Proof. intros Hp Hu. unfold GetScore.handler. by rewrite Hp, Hu. Qed.

(** Lower-casing the ASCII letters keeps a character inside or outside
    ASCII, and does nothing when done again. *)
Lemma lower_ascii_range c :
  (nat_of_ascii (lower_ascii c) <? 128)%nat = (nat_of_ascii c <? 128)%nat.
Proof. by destruct c as [[] [] [] [] [] [] [] []]. Qed.

Lemma lower_ascii_idem c : lower_ascii (lower_ascii c) = lower_ascii c.
Proof. by destruct c as [[] [] [] [] [] [] [] []]. Qed.

Lemma toLowerCase_ascii s : is_ascii (toLowerCase s) = is_ascii s.
Proof.
  induction s as [|c s IH]; [done|].
  cbn [toLowerCase is_ascii]. by rewrite lower_ascii_range, IH.
Qed.

Lemma toLowerCase_idem s : toLowerCase (toLowerCase s) = toLowerCase s.
Proof.
  induction s as [|c s IH]; [done|].
  cbn [toLowerCase]. by rewrite lower_ascii_idem, IH.
Qed.

(** [toLowerCase()] sees a name and the name with its ASCII letters in
    lower case alike. *)
Lemma js_toLowerCase_lowered w s : js_toLowerCase w (toLowerCase s) = js_toLowerCase w s.
Proof. unfold js_toLowerCase. by rewrite toLowerCase_ascii, toLowerCase_idem. Qed.

Lemma js_toLowerCase_ascii w s : is_ascii s = true -> js_toLowerCase w s = toLowerCase s.
Proof. unfold js_toLowerCase. by intros ->. Qed.

(** A name whose ASCII letters lower-case to one of the four keys has
    ASCII characters only, and [toLowerCase()] gives that key. *)
Lemma js_toLowerCase_key w s p : toLowerCase s = key p -> js_toLowerCase w s = key p.
Proof.
  intros H. rewrite js_toLowerCase_ascii; [done|].
  rewrite <- toLowerCase_ascii, H. by destruct p.
Qed.

Lemma dispatch_lowered w s p username :
  js_toLowerCase w s = key p ->
  GetScore.dispatch w (JStr s) username = GetScore.answer (lookup_adapter p w username).
Proof.
  intros H. unfold GetScore.dispatch, GetScore.lowered. rewrite H. by destruct p.
Qed.

Lemma dispatch_supported w s p username :
  toLowerCase s = key p ->
  GetScore.dispatch w (JStr s) username = GetScore.answer (lookup_adapter p w username).
Proof. intros H. by apply dispatch_lowered, js_toLowerCase_key. Qed.

Lemma dispatch_unsupported w s username :
  js_toLowerCase w s ∉ supported ->
  GetScore.dispatch w (JStr s) username = ([], Normal GetScore.unsupported).
Proof.
  intros H. unfold GetScore.dispatch, GetScore.lowered, supported in *.
  destruct (String.eqb_spec (js_toLowerCase w s) "leetcode") as [E|_].
  { destruct H. rewrite E. apply list_elem_of_here. }
  destruct (String.eqb_spec (js_toLowerCase w s) "codechef") as [E|_].
  { destruct H. rewrite E. apply list_elem_of_further, list_elem_of_here. }
  destruct (String.eqb_spec (js_toLowerCase w s) "hackerrank") as [E|_].
  { destruct H. rewrite E. do 2 apply list_elem_of_further. apply list_elem_of_here. }
  destruct (String.eqb_spec (js_toLowerCase w s) "gfg") as [E|_].
  { destruct H. rewrite E. do 3 apply list_elem_of_further. apply list_elem_of_here. }
  done.
Qed.

Lemma lookup_adapter_started p w username :
  (lookup_adapter p w username).1 = [HttpCall p username].
Proof. by destruct p. Qed.

Lemma lowered_truthy w s p : js_toLowerCase w s = key p -> truthy (JStr s) = true.
Proof. by destruct s, p. Qed.

Lemma lowered_key_truthy s p : toLowerCase s = key p -> truthy (JStr s) = true.
Proof. by destruct s, p. Qed.

(** C8, as stated, fails on a platform name in another case: [LeetCode]
    is not one of the four names, yet the lookup calls the LeetCode
    adapter and answers 200 with its record. *)
Lemma C8_counterexample :
  ("LeetCode" ∉ supported) /\
  (GetScore.handler lookup_world (lookup "LeetCode" "alice")).2
    = [HttpCall LeetCode (JStr "alice")] /\
  status (GetScore.handler lookup_world (lookup "LeetCode" "alice")).1 = 200 /\
  status (GetScore.handler lookup_world (lookup "LeetCode" "alice")).1 <> 400.
Proof.
  split; [|by vm_compute].
  unfold supported. not_listed.
Qed.

(** C8 (amended): a lookup with a missing or empty platform or username,
    or with a platform that is a string which [toLowerCase()] does not
    turn into one of leetcode, codechef, hackerrank, gfg, is answered 400
    before any network call; with a platform that is a string which
    [toLowerCase()] turns into one of the four, and a username, the one
    call of that adapter is made, and the answer is 500 with a diagnostic
    message if the call throws and 200 with the record of the adapter
    otherwise. *)
Theorem C8_lookup_statuses w request :
  (truthy (GetScore.query_platform request) = false \/
   truthy (GetScore.query_username request) = false ->
     status (GetScore.handler w request).1 = 400 /\ (GetScore.handler w request).2 = []) /\
  (forall s, GetScore.query_platform request = JStr s -> js_toLowerCase w s ∉ supported ->
     status (GetScore.handler w request).1 = 400 /\ (GetScore.handler w request).2 = []) /\
  (forall s p, GetScore.query_platform request = JStr s -> js_toLowerCase w s = key p ->
     truthy (GetScore.query_username request) = true ->
     (GetScore.handler w request).2 = [HttpCall p (GetScore.query_username request)] /\
     match (lookup_adapter p w (GetScore.query_username request)).2 with
     | Throw _ =>
         status (GetScore.handler w request).1 = 500 /\
         exists message, body (GetScore.handler w request).1 = JObj [("error", JStr message)]
     | Normal data =>
         status (GetScore.handler w request).1 = 200 /\
         body (GetScore.handler w request).1 = data
     end).
Proof.
  split; [|split].
  - intros H. by rewrite lookup_missing.
  - intros s Hs Hno.
    destruct (truthy (GetScore.query_platform request)) eqn:Hp;
      [|by rewrite lookup_missing by (by left)].
    destruct (truthy (GetScore.query_username request)) eqn:Hu;
      [|by rewrite lookup_missing by (by right)].
    by rewrite lookup_tried, Hs, dispatch_unsupported.
  - intros s p Hs Hkey Hu.
    rewrite lookup_tried; [|rewrite Hs; by eapply lowered_truthy|done].
    rewrite Hs, (dispatch_lowered _ _ p) by done. cbv zeta.
    unfold GetScore.answer. cbn [fst snd]. rewrite lookup_adapter_started.
    split; [done|].
    destruct (lookup_adapter p w _).2 as [data|e]; cbn; [done|].
    split; [done|]. by eexists.
Qed.

Lemma C8_lookup_statuses_witness :
  (truthy (GetScore.query_platform (lookup "" "alice")) = false /\
   status (GetScore.handler lookup_world (lookup "" "alice")).1 = 400) /\
  ((js_toLowerCase lookup_world "TopCoder" ∉ supported) /\
   status (GetScore.handler lookup_world (lookup "TopCoder" "alice")).1 = 400) /\
  (js_toLowerCase lookup_world "CodeChef" = key CodeChef /\
   status (GetScore.handler lookup_world (lookup "CodeChef" "bob")).1 = 500) /\
  (js_toLowerCase kelvin_world kelvin_name = key HackerRank /\
   (GetScore.handler kelvin_world (lookup kelvin_name "alice")).2
     = [HttpCall HackerRank (JStr "alice")] /\
   status (GetScore.handler kelvin_world (lookup kelvin_name "alice")).1 = 200).
Proof.
  assert (js_toLowerCase lookup_world "TopCoder" ∉ supported) as Hno
    by (vm_compute; not_listed).
  split; [|split; [|split]].
  - split; [reflexivity|].
    exact (proj1 (proj1 (C8_lookup_statuses lookup_world (lookup "" "alice"))
                    (or_introl eq_refl))).
  - split; [exact Hno|].
    exact (proj1 (proj1 (proj2 (C8_lookup_statuses lookup_world (lookup "TopCoder" "alice")))
                    "TopCoder" eq_refl Hno)).
  - split; [reflexivity|].
    exact (proj1 (proj2 (proj2 (proj2 (C8_lookup_statuses lookup_world
                                         (lookup "CodeChef" "bob")))
                           "CodeChef" CodeChef eq_refl eq_refl eq_refl))).
  - split; [reflexivity|].
    pose proof (proj2 (proj2 (C8_lookup_statuses kelvin_world (lookup kelvin_name "alice")))
                  kelvin_name HackerRank eq_refl eq_refl eq_refl) as [Hcall Hok].
    split; [exact Hcall|exact (proj1 Hok)].
Defined.

(** ** The LeetCode adapter of the lookup *)

Lemma entry_difficulty e : prop (entry e) "difficulty" = Normal (JStr e.1).
Proof. reflexivity. Qed.

Lemma entry_count e : opt_prop (entry e) "count" = Normal e.2.
Proof. reflexivity. Qed.

Lemma find_entry label entries :
  find_labelled "difficulty" label (map entry entries) =
    Normal (match List.find (fun e => String.eqb e.1 label) entries with
            | Some e => entry e
            | None => JUndefined
            end).
Proof.
  induction entries as [|e entries IH]; [done|].
  cbn [map find_labelled List.find]. rewrite entry_difficulty.
  cbn [mbind completion_bind strict_eq_str].
  by destruct (String.eqb e.1 label).
Qed.

(** A bucket of the record is the count of the first entry with its
    label, or zero. *)
Lemma bucket_entries label entries :
  bucket "difficulty" "count" label (JArr (map entry entries)) =
    Normal (count_of label entries).
Proof.
  unfold bucket, js_find, count_of. rewrite find_entry.
  cbn [mbind completion_bind].
  destruct (List.find _ entries) as [e|]; [|done].
  by rewrite entry_count.
Qed.

Lemma leetcode_record_entries entries :
  leetcode_record "difficulty" "count" (JArr (map entry entries)) =
    Normal (leetcode_of entries).
Proof. unfold leetcode_record. by rewrite !bucket_entries. Qed.

Lemma count_of_absent label entries :
  label ∉ entries.*1 -> count_of label entries = JNum 0.
Proof.
  intros Hno. unfold count_of.
  destruct (List.find _ entries) as [e|] eqn:E; [|done].
  apply List.find_some in E as [Hin Heq%String.eqb_eq].
  destruct Hno. apply list_elem_of_fmap. exists e. by rewrite list_elem_of_In.
Qed.

Lemma count_of_present label c entries :
  NoDup entries.*1 -> (label, c) ∈ entries ->
  count_of label entries = js_or c (JNum 0).
Proof.
  unfold count_of.
  induction entries as [|[l c'] entries IH]; intros Hnd Hin; [by apply elem_of_nil in Hin|].
  rewrite fmap_cons in Hnd. apply NoDup_cons in Hnd as [Hfresh Hnd].
  cbn [List.find fst]. destruct (String.eqb_spec l label) as [->|Hne].
  - apply elem_of_cons in Hin as [[= ->]|Hin]; [done|].
    destruct Hfresh. apply list_elem_of_fmap. by exists (label, c).
  - apply elem_of_cons in Hin as [[= -> ->]|Hin]; [done|]. by apply IH.
Qed.

(** With one entry per label the order of the list does not matter. *)
Lemma count_of_permuted label entries entries' :
  NoDup entries.*1 -> entries' ≡ₚ entries ->
  count_of label entries' = count_of label entries.
Proof.
  intros Hnd Hperm.
  assert (NoDup entries'.*1) as Hnd' by (by rewrite Hperm).
  destruct (decide (label ∈ entries.*1)) as [Hin|Hno].
  - apply list_elem_of_fmap in Hin as ([l c] & Hl & Hin).
    cbn in Hl. subst l.
    rewrite (count_of_present label c entries), (count_of_present label c entries'); try done.
    by rewrite Hperm.
  - rewrite !count_of_absent; try done. by rewrite Hperm.
Qed.

Lemma lookup_leetcode w request s data :
  GetScore.query_platform request = JStr s ->
  toLowerCase s = "leetcode" ->
  truthy (GetScore.query_username request) = true ->
  leetcode_graphql w (GetScore.query_username request) = Served data ->
  (GetScore.handler w request).1 =
    match
      errors ← prop data "errors";
      if truthy errors then
        message ← prop (elem0 errors) "message";
        Throw (Error_message message)
      else
        stats ← acSubmissionNum data;
        leetcode_record "difficulty" "count" stats
    with
    | Normal record => GetScore.ok record
    | Throw _ => GetScore.failure (JStr s)
    end.
Proof.
  intros Hs Hkey Hu Hdata.
  rewrite lookup_tried; [|rewrite Hs; by apply (lowered_key_truthy s LeetCode)|done].
  rewrite Hs, (dispatch_supported _ _ LeetCode) by done. cbv zeta.
  unfold GetScore.answer, lookup_adapter, GetScore.getLeetCodeStats. cbn [fst snd].
  rewrite Hdata.
  by destruct (prop data "errors" ≫= _).
Qed.

(** C9: in the lookup, an error-shaped LeetCode payload makes the adapter
    throw and the request is answered 500 with the diagnostic, never with
    a record of zeros; a payload without errors is answered 200 with the
    four buckets All, Easy, Medium, Hard, each the count of the entry
    with that label wherever it stands in the list, and zero when the
    list has no entry with that label. *)
Theorem C9_leetcode_lookup w request s data errors :
  GetScore.query_platform request = JStr s ->
  toLowerCase s = "leetcode" ->
  truthy (GetScore.query_username request) = true ->
  leetcode_graphql w (GetScore.query_username request) = Served data ->
  prop data "errors" = Normal errors ->
  (truthy errors = true ->
     (exists e, (GetScore.getLeetCodeStats w (GetScore.query_username request)).2 = Throw e) /\
     status (GetScore.handler w request).1 = 500 /\
     (exists message, body (GetScore.handler w request).1 = JObj [("error", JStr message)]) /\
     body (GetScore.handler w request).1 <> leetcode_of []) /\
  (truthy errors = false ->
   forall entries, acSubmissionNum data = Normal (JArr (map entry entries)) ->
     status (GetScore.handler w request).1 = 200 /\
     body (GetScore.handler w request).1 = leetcode_of entries /\
     (forall label, label ∉ entries.*1 -> count_of label entries = JNum 0) /\
     (forall label c, NoDup entries.*1 -> (label, c) ∈ entries ->
        count_of label entries = js_or c (JNum 0)) /\
     (forall entries', NoDup entries.*1 -> entries' ≡ₚ entries ->
        leetcode_record "difficulty" "count" (JArr (map entry entries'))
        = Normal (leetcode_of entries))).
Proof.
  intros Hs Hkey Hu Hdata Herrors.
  rewrite (lookup_leetcode w request s data), Herrors by done.
  cbn [mbind completion_bind]. split; intros Ht; rewrite Ht.
  - split.
    + unfold GetScore.getLeetCodeStats. cbn [snd]. rewrite Hdata, Herrors.
      cbn [mbind completion_bind]. rewrite Ht.
      destruct (prop (elem0 errors) "message"); by eexists.
    + destruct (prop (elem0 errors) "message"); cbn; (split; [done|]);
        (split; [by eexists|done]).
  - intros entries Hlist. rewrite Hlist. cbn [mbind completion_bind].
    rewrite leetcode_record_entries.
    split; [done|]. split; [done|]. split; [|split].
    + intros label. apply count_of_absent.
    + intros label c. apply count_of_present.
    + intros entries' Hnd Hperm. rewrite leetcode_record_entries.
      unfold leetcode_of. by rewrite !(count_of_permuted _ entries entries').
Qed.

Lemma C9_leetcode_lookup_witness :
  (GetScore.query_platform (lookup "leetcode" "nobody") = JStr "leetcode" /\
   leetcode_graphql lookup_world (JStr "nobody") = Served unknown_user_payload /\
   truthy (JArr [JObj [("message", JStr "That user does not exist.")]]) = true /\
   status (GetScore.handler lookup_world (lookup "leetcode" "nobody")).1 = 500) /\
  (GetScore.query_platform (lookup "leetcode" "alice") = JStr "leetcode" /\
   leetcode_graphql lookup_world (JStr "alice")
     = Served (submissions (JArr (map entry alice_entries))) /\
   truthy JUndefined = false /\
   status (GetScore.handler lookup_world (lookup "leetcode" "alice")).1 = 200 /\
   body (GetScore.handler lookup_world (lookup "leetcode" "alice")).1
     = JObj [("leetcode", JObj [("problems_solved", JNum 120); ("Easy", JNum 80);
                                ("Medium", JNum 40); ("Hard", JNum 0)])]).
Proof.
  split.
  - split; [reflexivity|]. split; [reflexivity|]. split; [reflexivity|].
    exact (proj1 (proj2 (proj1 (C9_leetcode_lookup lookup_world (lookup "leetcode" "nobody")
                                  "leetcode" unknown_user_payload
                                  (JArr [JObj [("message", JStr "That user does not exist.")]])
                                  eq_refl eq_refl eq_refl eq_refl eq_refl) eq_refl))).
  - split; [reflexivity|]. split; [reflexivity|]. split; [reflexivity|].
    pose proof (proj2 (C9_leetcode_lookup lookup_world (lookup "leetcode" "alice")
                         "leetcode" (submissions (JArr (map entry alice_entries))) JUndefined
                         eq_refl eq_refl eq_refl eq_refl eq_refl) eq_refl
                  alice_entries eq_refl) as (Hstatus & Hbody & _).
    split; [exact Hstatus|exact Hbody].
Defined.

(** ** More of the refresh handler: the credential *)

Lemma append_cons c s t : String c s +:+ t = String c (s +:+ t).
Proof. reflexivity. Qed.

Lemma append_nil_r s : s +:+ "" = s.
Proof. induction s as [|c s IH]; [done|]. by rewrite append_cons, IH. Qed.

Lemma append_assoc s1 s2 s3 : (s1 +:+ s2) +:+ s3 = s1 +:+ (s2 +:+ s3).
Proof. induction s1 as [|c s1 IH]; [done|]. by rewrite !append_cons, IH. Qed.

Lemma prefix_append sep x y :
  String.prefix sep x = true -> String.prefix sep (x +:+ y) = true.
Proof.
  revert x. induction sep as [|c sep IH]; intros x H; [by destruct x, y|].
  apply prefix_String in H as (r & -> & H).
  change (String c r +:+ y) with (String c (r +:+ y)).
  change (String.prefix (String c sep) (String c (r +:+ y)))
    with (if ascii_dec c c then String.prefix sep (r +:+ y) else false).
  destruct (ascii_dec c c); [by apply IH|done].
Qed.

(** The first piece of a split by a non-empty separator is the text up
    to the first place where the separator stands. *)
Lemma split_go_first a sep r : forall cur,
  exists piece pieces tail,
    split_go (String a sep) 0 cur r = (cur +:+ piece) :: pieces /\
    r = piece +:+ tail /\
    occurs (String a sep) piece = false /\
    (tail = "" /\ pieces = [] \/ String.prefix (String a sep) tail = true).
Proof.
  induction r as [|c r IH]; intros cur.
  { exists "", [], "". rewrite append_nil_r. repeat split. by left. }
  cbn [split_go]. destruct (String.prefix (String a sep) (String c r)) eqn:Hp.
  - eexists "", _, (String c r). rewrite append_nil_r. repeat split. by right.
  - destruct (IH (cur +:+ String c "")) as (piece & pieces & tail & -> & -> & Hocc & Htail).
    exists (String c piece), pieces, tail. rewrite append_assoc.
    split; [done|]. split; [done|]. split; [|done].
    cbn [occurs]. rewrite Hocc, orb_false_r.
    destruct (String.prefix (String a sep) (String c piece)) eqn:Hp'; [|done].
    apply (prefix_append _ _ tail) in Hp'. rewrite append_cons in Hp'. congruence.
Qed.

Lemma split_go_whole a sep r cur :
  occurs (String a sep) r = false -> split_go (String a sep) 0 cur r = [cur +:+ r].
Proof.
  revert cur. induction r as [|c r IH]; intros cur H.
  { by rewrite append_nil_r. }
  cbn [occurs] in H. apply orb_false_iff in H as [Hp Hocc].
  cbn [split_go]. rewrite Hp, IH by done. by rewrite append_assoc.
Qed.

(** What the handler hands to [verifyIdToken]: the header after its
    leading [Bearer ], cut where a further [Bearer ] begins. *)
Lemma bearer_token_cut t :
  exists token tail,
    bearer_token (post (Some ("Bearer " +:+ t))) = Some token /\
    t = token +:+ tail /\
    occurs "Bearer " token = false /\
    (tail = "" \/ String.prefix "Bearer " tail = true).
Proof.
  unfold bearer_token, post. cbn [Refresh.authorization].
  rewrite prefix_app, split_sep_first.
  destruct (split_go_first "B" "earer " t "") as (piece & pieces & tail & -> & -> & Hocc & Ht).
  exists piece, tail. repeat split; try done. destruct Ht as [[-> _]|Ht]; eauto.
Qed.

(** X1: on a POST whose header is [Bearer ] followed by [t], the first
    thing the handler does is to verify a credential; that credential is
    [t] up to the first [Bearer ] inside [t], and the whole of [t] when
    there is none. *)
Theorem X1_credential_presented f w order t :
  exists token tail,
    (Refresh.handler f w order (post (Some ("Bearer " +:+ t)))).2 !! 0%nat
      = Some (VerifyIdToken token) /\
    t = token +:+ tail /\
    occurs "Bearer " token = false /\
    (tail = "" \/ String.prefix "Bearer " tail = true) /\
    (occurs "Bearer " t = false -> token = t).
Proof.
  destruct (bearer_token_cut t) as (token & tail & Htoken & Ht & Hocc & Htail).
  exists token, tail. split; [|split; [done|split; [done|split; [done|]]]].
  - rewrite (handler_bearer _ _ _ _ token) by done.
    by destruct (verifyIdToken w token).
  - intros Hfree. destruct Htail as [->|Hp]; [by rewrite append_nil_r in Ht|].
    exfalso. subst t. clear -Hfree Hp.
    induction token as [|c token IH].
    + change ("" +:+ tail) with tail in Hfree.
      destruct tail; cbn [occurs] in Hfree; by rewrite Hp in Hfree.
    + rewrite append_cons in Hfree. cbn [occurs] in Hfree.
      apply orb_false_iff in Hfree as [_ Hfree]. by apply IH.
Qed.

Lemma X1_credential_presented_witness :
  occurs "Bearer " "token-1" = false /\
  (Refresh.handler Refresh.part_000 sample_world [] (post (Some "Bearer token-1"))).2 !! 0%nat
    = Some (VerifyIdToken "token-1") /\
  (Refresh.handler Refresh.part_000 sample_world []
     (post (Some "Bearer one Bearer two"))).2 !! 0%nat
    = Some (VerifyIdToken "one ").
Proof.
  split; [reflexivity|]. split.
  - destruct (X1_credential_presented Refresh.part_000 sample_world [] "token-1")
      as (token & tail & Hfirst & _ & _ & _ & Hwhole).
    rewrite (Hwhole eq_refl) in Hfirst. exact Hfirst.
  - reflexivity.
Defined.

(** ** More of the refresh handler: the join *)

Lemma foldl_fill_length promises order : forall values,
  length (foldl (Refresh.fill promises) values order) = length values.
Proof.
  induction order as [|i order IH]; intros values; [done|].
  cbn [foldl]. by rewrite IH, fill_length.
Qed.

Lemma allSettled_covered promises order :
  (forall i, (i < length promises)%nat -> i ∈ order) ->
  Refresh.allSettled promises order = Some promises.
Proof.
  intros Hall. unfold Refresh.allSettled.
  replace (foldl (Refresh.fill promises) (replicate (length promises) None) order)
    with (Some <$> promises); [by apply mapM_fmap_Some|].
  apply list_eq. intros j.
  rewrite foldl_fill_lookup by apply length_replicate.
  rewrite list_lookup_fmap.
  case_decide as Hin; [done|].
  destruct (promises !! j) as [r|] eqn:E; simpl.
  - destruct Hin. apply Hall. by eapply lookup_lt_Some.
  - symmetry. apply lookup_ge_None. rewrite length_replicate. by apply lookup_ge_None.
Qed.

(** The join resolves exactly when every started call has settled, and
    then with the terminal states in input order. *)
Lemma allSettled_Some promises order results :
  Refresh.allSettled promises order = Some results <->
  results = promises /\ forall i, (i < length promises)%nat -> i ∈ order.
Proof.
  split.
  - intros H.
    assert (forall i, (i < length promises)%nat -> i ∈ order) as Hall.
    { intros i Hi. destruct (decide (i ∈ order)) as [|Hno]; [done|]. exfalso.
      unfold Refresh.allSettled in H. apply mapM_Some_1 in H.
      assert (foldl (Refresh.fill promises) (replicate (length promises) None) order !! i
              = Some None) as Hslot.
      { rewrite foldl_fill_lookup by apply length_replicate.
        rewrite decide_False by done. by apply lookup_replicate_2. }
      by destruct (Forall2_lookup_l _ _ _ _ _ H Hslot) as (y & _ & ?). }
    split; [|done]. rewrite allSettled_covered in H by done. congruence.
  - intros [-> Hall]. by apply allSettled_covered.
Qed.

Lemma allSettled_None promises order :
  Refresh.allSettled promises order = None <->
  exists i, (i < length promises)%nat /\ i ∉ order.
Proof.
  split.
  - intros H.
    destruct (decide (Forall (fun i => i ∈ order) (seq 0 (length promises)))) as [Hall|Hno].
    + rewrite allSettled_covered in H; [done|].
      intros i Hi. rewrite Forall_forall in Hall. apply Hall, elem_of_seq. lia.
    + apply not_Forall_Exists in Hno; [|apply _].
      apply Exists_exists in Hno as (i & [_ Hi]%elem_of_seq & Hno). exists i. split; [lia|done].
  - intros (i & Hi & Hno).
    destruct (Refresh.allSettled promises order) as [results|] eqn:E; [|done].
    apply allSettled_Some in E as [_ Hall]. by destruct Hno; apply Hall.
Qed.

(** Lines 51 to 66, and lines 51 to 79, case by case. *)
Lemma scrape_cases f w order userData :
  ((exists i, (i < length (started userData))%nat /\ i ∉ order) /\
   (Refresh.scrape f w order userData).1 = None) \/
  ((forall i, (i < length (started userData))%nat -> i ∈ order) /\
   (Refresh.scrape f w order userData).1 = Some (Refresh.newStats (outcomes f w userData))).
Proof.
  unfold Refresh.scrape. cbv zeta. cbn [fst]. fold (outcomes f w userData).
  assert (length (outcomes f w userData) = length (started userData)) as Hlen
    by (by rewrite outcomes_started, length_map).
  destruct (Refresh.allSettled _ order) as [results|] eqn:E.
  - apply allSettled_Some in E as [-> Hall]. rewrite Hlen in Hall. by right.
  - apply allSettled_None in E. rewrite Hlen in E. by left.
Qed.

Lemma scrape_and_save_cases f w order uid userData :
  ((exists i, (i < length (started userData))%nat /\ i ∉ order) /\
   Refresh.scrape_and_save f w order uid userData =
     (None, map (fun p => HttpCall p (username_of userData p)) (started userData))) \/
  ((forall i, (i < length (started userData))%nat -> i ∈ order) /\
   Refresh.scrape_and_save f w order uid userData =
     (Some (if users_update w uid (Refresh.newStats (outcomes f w userData))
            then Refresh.success else Refresh.internal_error),
      (map (fun p => HttpCall p (username_of userData p)) (started userData)
         ++ [DocUpdate uid (Refresh.newStats (outcomes f w userData))])%list)).
Proof.
  unfold Refresh.scrape_and_save. cbv zeta.
  pose proof (scrape_started f w order userData) as Hs.
  destruct (scrape_cases f w order userData) as [[Hno Hr]|[Hall Hr]];
    rewrite Hr, Hs; [by left|by right].
Qed.

(** ** More of the refresh handler: every way through it *)

Lemma lacks_bearer_no_token request :
  lacks_bearer request <-> bearer_token request = None.
Proof.
  unfold lacks_bearer, bearer_token.
  destruct (Refresh.authorization request) as [a|]; [|done].
  destruct (String.prefix "Bearer " a) eqn:Hp; [|done].
  destruct (bearer_has_token a Hp) as [t ->]. done.
Qed.

Lemma handler_cases f w order request :
  (Refresh.method request <> "POST" /\
   Refresh.handler f w order request = (Some Refresh.method_not_allowed, [])) \/
  (Refresh.method request = "POST" /\ lacks_bearer request /\
   Refresh.handler f w order request = (Some Refresh.missing_token, [])) \/
  (exists t, Refresh.method request = "POST" /\ bearer_token request = Some t /\
     verifyIdToken w t = None /\
     Refresh.handler f w order request = (Some Refresh.invalid_token, [VerifyIdToken t])) \/
  (exists t uid, Refresh.method request = "POST" /\ bearer_token request = Some t /\
     verifyIdToken w t = Some uid /\
     Refresh.handler f w order request =
       (Some Refresh.internal_error, [VerifyIdToken t; DocGet uid])).
Proof.
  destruct (handler_gates request) as [H|[[Hm H]|[Hm [t Ht]]]].
  - left. by rewrite handler_not_post.
  - right. left. by rewrite handler_lacks_bearer.
  - right. right.
    destruct (verifyIdToken w t) as [uid|] eqn:Hv; [right|left].
    + exists t, uid. by rewrite (handler_verified _ _ _ _ t uid).
    + exists t. by rewrite (handler_bearer _ _ _ _ t), Hv.
Qed.

Ltac listed := repeat first [apply list_elem_of_here | apply list_elem_of_further].

(** X2: when the refresh handler answers, its status is one of 200, 401,
    403, 404, 405 and 500. *)
Theorem X2_refresh_statuses f w order request response :
  (Refresh.handler f w order request).1 = Some response ->
  status response ∈ refresh_statuses.
Proof.
  unfold refresh_statuses.
  destruct (handler_cases f w order request)
    as [[_ ->]|[(_ & _ & ->)|[(t & _ & _ & _ & ->)|(t & uid & _ & _ & _ & ->)]]];
    cbn [fst]; intros [= <-]; cbn; listed.
Qed.

Lemma X2_refresh_statuses_witness :
  (Refresh.handler Refresh.part_000 sample_world [0; 1]%nat sample_request).1
    = Some Refresh.internal_error /\
  status Refresh.internal_error ∈ refresh_statuses.
Proof.
  split; [by vm_compute|].
  apply (X2_refresh_statuses Refresh.part_000 sample_world [0; 1]%nat sample_request).
  by vm_compute.
Defined.

(** X3: when the read of the profile throws, the answer is 500 and
    nothing follows the read: no adapter call and no write. *)
Theorem X3_profile_read_fails f w order request t uid e :
  VerifyIdToken t ∈ (Refresh.handler f w order request).2 ->
  verifyIdToken w t = Some uid ->
  users_get w uid = Failed e ->
  status <$> (Refresh.handler f w order request).1 = Some 500 /\
  (Refresh.handler f w order request).2 = [VerifyIdToken t; DocGet uid].
Proof.
  intros [Hm Ht]%verified_in_trace Hv Hget.
  rewrite (handler_bearer _ _ _ _ t), Hv by done.
  unfold Refresh.refresh. by rewrite Hget.
Qed.

Lemma X3_profile_read_fails_witness :
  VerifyIdToken "token-1" ∈
    (Refresh.handler Refresh.refresh_stats_js offline_world [] sample_request).2 /\
  verifyIdToken offline_world "token-1" = Some "uid-1" /\
  users_get offline_world "uid-1" = Failed "UNAVAILABLE" /\
  status <$> (Refresh.handler Refresh.refresh_stats_js offline_world [] sample_request).1
    = Some 500 /\
  (Refresh.handler Refresh.refresh_stats_js offline_world [] sample_request).2
    = [VerifyIdToken "token-1"; DocGet "uid-1"].
Proof.
  split; [vm_compute; apply list_elem_of_here|].
  split; [reflexivity|]. split; [reflexivity|].
  apply (X3_profile_read_fails Refresh.refresh_stats_js offline_world [] sample_request
           "token-1" "uid-1" "UNAVAILABLE");
    [vm_compute; apply list_elem_of_here|reflexivity|reflexivity].
Defined.

(** X4: the three statuses of the gates each have one cause: 405 is
    answered exactly to a method other than POST, 401 exactly to a POST
    whose header is absent or has no [Bearer ] in front, 403 exactly to a
    POST whose credential fails verification. *)
Theorem X4_gate_statuses f w order request :
  (status <$> (Refresh.handler f w order request).1 = Some 405 <->
   Refresh.method request <> "POST") /\
  (status <$> (Refresh.handler f w order request).1 = Some 401 <->
   Refresh.method request = "POST" /\ lacks_bearer request) /\
  (status <$> (Refresh.handler f w order request).1 = Some 403 <->
   Refresh.method request = "POST" /\
   exists t, bearer_token request = Some t /\ verifyIdToken w t = None).
Proof.
  destruct (handler_cases f w order request)
    as [[Hm ->]|[(Hm & Hl & ->)|[(t & Hm & Ht & Hv & ->)|(t & uid & Hm & Ht & Hv & ->)]]];
    cbn [fst]; (split; [|split]); split.
  - done.
  - done.
  - done.
  - by intros [? _].
  - done.
  - by intros [? _].
  - done.
  - done.
  - done.
  - done.
  - done.
  - intros [_ (t & Ht & _)]. apply lacks_bearer_no_token in Hl. congruence.
  - done.
  - done.
  - done.
  - intros [_ Hl%lacks_bearer_no_token]. congruence.
  - eauto.
  - done.
  - done.
  - done.
  - done.
  - intros [_ Hl%lacks_bearer_no_token]. congruence.
  - done.
  - intros [_ (t' & Ht' & Hv')]. congruence.
Qed.

Lemma calls_of_requests (u : platform -> jsval) ps :
  calls_of (map (fun p => HttpCall p (u p)) ps) = map (fun p => (p, u p)) ps.
Proof. induction ps as [|p ps IH]; [done|]. cbn. by f_equal. Qed.

Lemma started_sublist userData : started userData `sublist_of` platforms.
Proof.
  unfold started. induction platforms as [|p ps IH]; [done|].
  cbn [List.filter]. destruct (configured userData p).
  - by apply sublist_skip.
  - by apply sublist_cons.
Qed.

(** X5: no request gets past the read of the profile.  The handler
    always answers; it starts no adapter call and writes nothing; it
    answers neither 200 nor 404; and whatever it does after the gates is
    the one read of the caller's document. *)
Theorem X5_stops_at_the_read f w order request :
  is_Some (Refresh.handler f w order request).1 /\
  Forall (fun e => is_network_call e = false /\ is_update e = false)
    (Refresh.handler f w order request).2 /\
  status <$> (Refresh.handler f w order request).1 ≠ Some 200 /\
  status <$> (Refresh.handler f w order request).1 ≠ Some 404 /\
  (forall uid, DocGet uid ∈ (Refresh.handler f w order request).2 ->
     last (Refresh.handler f w order request).2 = Some (DocGet uid) /\
     status <$> (Refresh.handler f w order request).1 = Some 500).
Proof.
  destruct (handler_cases f w order request)
    as [[_ ->]|[(_ & _ & ->)|[(t & _ & _ & _ & ->)|(t & uid & _ & _ & _ & ->)]]];
    cbn [fst snd]; (split; [by eexists|]); (split; [by repeat constructor|]);
    (split; [done|]); (split; [done|]); intros uid'.
  - by intros ?%elem_of_nil.
  - by intros ?%elem_of_nil.
  - by intros [=]%list_elem_of_singleton.
  - by intros [[=]|[= ->]%list_elem_of_singleton]%elem_of_cons.
Qed.

Lemma X5_stops_at_the_read_witness :
  DocGet "uid-1" ∈ (Refresh.handler Refresh.part_000 sample_world [1; 0]%nat sample_request).2 /\
  last (Refresh.handler Refresh.part_000 sample_world [1; 0]%nat sample_request).2
    = Some (DocGet "uid-1") /\
  status <$> (Refresh.handler Refresh.part_000 sample_world [1; 0]%nat sample_request).1
    = Some 500.
Proof.
  assert (DocGet "uid-1" ∈
    (Refresh.handler Refresh.part_000 sample_world [1; 0]%nat sample_request).2) as Hin
    by (vm_compute; apply list_elem_of_further, list_elem_of_here).
  split; [exact Hin|].
  exact (proj2 (proj2 (proj2 (proj2 (X5_stops_at_the_read Refresh.part_000 sample_world
                                       [1; 0]%nat sample_request)))) "uid-1" Hin).
Defined.

(** X6: a 500 of the refresh has one cause: the request is a POST whose
    credential verified, so that the profile was asked for.  Whether the
    read fails or comes back, and whatever the profile holds, the answer
    is then 500. *)
Theorem X6_server_error_cause f w order request :
  (status <$> (Refresh.handler f w order request).1 = Some 500 <->
   Refresh.method request = "POST" /\
   exists t uid, bearer_token request = Some t /\ verifyIdToken w t = Some uid) /\
  (status <$> (Refresh.handler f w order request).1 = Some 500 <->
   exists uid, DocGet uid ∈ (Refresh.handler f w order request).2).
Proof.
  destruct (handler_cases f w order request)
    as [[Hm ->]|[(Hm & Hl & ->)|[(t & Hm & Ht & Hv & ->)|(t & uid & Hm & Ht & Hv & ->)]]];
    cbn [fst snd]; split; split; try done.
  - by intros [? _].
  - by intros [? ?%elem_of_nil].
  - intros [_ (t & uid & Ht & _)]. apply lacks_bearer_no_token in Hl. congruence.
  - by intros [? ?%elem_of_nil].
  - intros [_ (t' & uid & Ht' & Hv')]. congruence.
  - by intros [? [=]%list_elem_of_singleton].
  - intros _. split; [done|]. by exists t, uid.
  - intros _. exists uid. listed.
Qed.

Lemma X6_server_error_cause_witness :
  (Refresh.method sample_request = "POST" /\
   exists t uid, bearer_token sample_request = Some t /\
                 verifyIdToken readonly_world t = Some uid) /\
  status <$> (Refresh.handler Refresh.part_000 readonly_world [1; 0]%nat sample_request).1
    = Some 500.
Proof.
  assert (Refresh.method sample_request = "POST" /\
          exists t uid, bearer_token sample_request = Some t /\
                        verifyIdToken readonly_world t = Some uid) as Hcause
    by (split; [reflexivity|by exists "token-1", "uid-1"]).
  split; [exact Hcause|].
  exact (proj2 (proj1 (X6_server_error_cause Refresh.part_000 readonly_world [1; 0]%nat
                         sample_request)) Hcause).
Defined.

(** X7: the handler reads and writes no document but that of the caller:
    every document in its trace is the one of the uid that the credential
    of the request verifies to. *)
Theorem X7_own_document_only f w order request uid :
  uid ∈ documents_of (Refresh.handler f w order request).2 ->
  exists t, bearer_token request = Some t /\ verifyIdToken w t = Some uid.
Proof.
  unfold documents_of. intros (e & He & Hdoc)%list_elem_of_omap.
  apply handler_past_gates in He as (t & uid' & _ & Ht & Hv & He & _); [|by intros t ->].
  exists t. split; [done|].
  rewrite refresh_throws in He. cbn [snd] in He.
  apply list_elem_of_singleton in He as ->. cbn in Hdoc. congruence.
Qed.

Lemma X7_own_document_only_witness :
  "uid-1" ∈ documents_of
    (Refresh.handler Refresh.part_000 sample_world [0; 1]%nat sample_request).2 /\
  exists t, bearer_token sample_request = Some t /\ verifyIdToken sample_world t = Some "uid-1".
Proof.
  assert ("uid-1" ∈ documents_of
    (Refresh.handler Refresh.part_000 sample_world [0; 1]%nat sample_request).2) as Hin
    by (vm_compute; apply list_elem_of_here).
  split; [exact Hin|].
  exact (X7_own_document_only Refresh.part_000 sample_world [0; 1]%nat sample_request
           "uid-1" Hin).
Defined.

(** X8: the adapter calls that lines 51 to 56 start are those of the
    platforms for which the profile has a username, each once, with that
    username, in the order LeetCode, CodeChef, HackerRank, GeeksforGeeks,
    whatever the order in which they settle; the write adds no call. *)
Theorem X8_calls_follow_profile f w order userData :
  calls_of (Refresh.scrape f w order userData).2
    = map (fun p => (p, username_of userData p)) (started userData) /\
  (forall p u, (p, u) ∈ calls_of (Refresh.scrape f w order userData).2 <->
     configured userData p = true /\ u = username_of userData p) /\
  (calls_of (Refresh.scrape f w order userData).2).*1 `sublist_of` platforms /\
  Forall (fun e => is_network_call e = true) (Refresh.scrape f w order userData).2 /\
  (forall uid, calls_of (Refresh.scrape_and_save f w order uid userData).2
               = calls_of (Refresh.scrape f w order userData).2).
Proof.
  rewrite scrape_started, calls_of_requests.
  split; [done|]. split; [|split; [|split]].
  - intros p u. rewrite list_elem_of_fmap. setoid_rewrite elem_of_started. split.
    + by intros (q & [= -> ->] & Hq).
    + intros [Hc ->]. by exists p.
  - replace ((map (fun p => (p, username_of userData p)) (started userData)).*1)
      with (started userData); [apply started_sublist|].
    induction (started userData) as [|p ps IH]; [done|]. cbn. by f_equal.
  - apply Forall_forall. by intros e (p & -> & _)%list_elem_of_fmap.
  - intros uid.
    destruct (scrape_and_save_cases f w order uid userData) as [[_ ->]|[_ ->]]; cbn [snd].
    + apply calls_of_requests.
    + unfold calls_of. rewrite omap_app. cbn. rewrite app_nil_r. apply calls_of_requests.
Qed.

Lemma X8_calls_follow_profile_witness :
  calls_of (Refresh.scrape Refresh.part_000 sample_world [1; 0]%nat sample_profile).2
    = [(LeetCode, JStr "alice"); (CodeChef, JStr "bob")] /\
  configured sample_profile CodeChef = true /\
  (CodeChef, JStr "bob")
    ∈ calls_of (Refresh.scrape Refresh.part_000 sample_world [1; 0]%nat sample_profile).2.
Proof.
  split; [reflexivity|]. split; [reflexivity|].
  exact (proj2 (proj1 (proj2 (X8_calls_follow_profile Refresh.part_000 sample_world
                                [1; 0]%nat sample_profile)) CodeChef (JStr "bob"))
           (conj eq_refl eq_refl)).
Defined.

(** X9: lines 58 to 79 have no timeout of their own: they answer exactly
    when every started call has settled, then after one write; while a
    call has not settled nothing is written. *)
Theorem X9_join_waits_for_all f w order uid userData :
  (is_Some (Refresh.scrape_and_save f w order uid userData).1 <->
   forall i, (i < length (started userData))%nat -> i ∈ order) /\
  ((Refresh.scrape_and_save f w order uid userData).1 = None ->
   Forall (fun e => is_update e = false) (Refresh.scrape_and_save f w order uid userData).2) /\
  (is_Some (Refresh.scrape_and_save f w order uid userData).1 ->
   last (Refresh.scrape_and_save f w order uid userData).2
   = Some (DocUpdate uid (Refresh.newStats (outcomes f w userData)))).
Proof.
  destruct (scrape_and_save_cases f w order uid userData)
    as [[(i & Hi & Hno) ->]|[Hall ->]]; cbn [fst snd].
  - split; [|split].
    + split; [by intros [? [=]]|]. intros Hall. by destruct Hno; apply Hall.
    + intros _. apply requests_no_update.
    + by intros [? [=]].
  - split; [|split]; [|done|].
    + split; [done|]. intros _. by eexists.
    + intros _. by rewrite last_snoc.
Qed.

Lemma X9_join_waits_for_all_witness :
  (Refresh.scrape_and_save Refresh.part_000 sample_world [1]%nat "uid-1" sample_profile).1
    = None /\
  Forall (fun e => is_update e = false)
    (Refresh.scrape_and_save Refresh.part_000 sample_world [1]%nat "uid-1" sample_profile).2 /\
  (forall i, (i < length (started sample_profile))%nat -> i ∈ [1; 0]%nat) /\
  is_Some (Refresh.scrape_and_save Refresh.part_000 sample_world [1; 0]%nat "uid-1"
             sample_profile).1.
Proof.
  assert ((Refresh.scrape_and_save Refresh.part_000 sample_world [1]%nat "uid-1"
             sample_profile).1 = None) as Hwait by (by vm_compute).
  assert (forall i, (i < length (started sample_profile))%nat -> i ∈ [1; 0]%nat) as Hall.
  { intros [|[|i]] Hi; [listed|listed|]. cbn in Hi. lia. }
  split; [exact Hwait|]. split.
  - exact (proj1 (proj2 (X9_join_waits_for_all Refresh.part_000 sample_world [1]%nat "uid-1"
                           sample_profile)) Hwait).
  - split; [exact Hall|].
    exact (proj2 (proj1 (X9_join_waits_for_all Refresh.part_000 sample_world [1; 0]%nat
                           "uid-1" sample_profile)) Hall).
Defined.

(** ** The adapters of the two revisions of the refresh *)

Lemma aggregate_at f w userData p v :
  Refresh.newStats (outcomes f w userData) !! key p = Some v <->
  configured userData p = true /\
  outcome f w userData p = Refresh.Fulfilled (JObj [(key p, v)]).
Proof.
  rewrite aggregate_lookup. split.
  - intros (q & Hc & Hq).
    pose proof (outcome_keyed f w userData q) as K. rewrite Hq in K.
    apply keyed_record_key, key_inj in K. by subst q.
  - intros [Hc Hp]. by exists p.
Qed.

Lemma aggregate_at_None f w userData p :
  succeeded (outcome f w userData p) = false ->
  Refresh.newStats (outcomes f w userData) !! key p = None.
Proof.
  intros Hfail. apply eq_None_not_Some. intros [v [_ Hv]%aggregate_at].
  by rewrite Hv in Hfail.
Qed.

Lemma or_null_Normal c v : c = Normal v -> Part000.or_null c = Normal v.
Proof. by intros ->. Qed.

Lemma or_null_record c fields :
  Part000.or_null c = Normal (JObj fields) -> c = Normal (JObj fields).
Proof. by destruct c. Qed.


Lemma settle_Fulfilled c v : Refresh.settle c = Refresh.Fulfilled v <-> c = Normal v.
Proof. destruct c; split; by intros [= ->]. Qed.


(** The adapters of LeetCode, CodeChef and HackerRank of part_000 are
    those of src/api/refresh-stats.js inside a [try]. *)
Lemma part_000_or_null p w username :
  p <> Gfg ->
  (getStats Refresh.part_000 p w username).2
  = Part000.or_null (getStats Refresh.refresh_stats_js p w username).2.
Proof. by destruct p. Qed.

(** What the promise of an adapter of src/api/refresh-stats.js is
    fulfilled with, that of the same adapter of part_000 is fulfilled
    with too, up to the radix of the GeeksforGeeks score card. *)
Lemma part_000_keeps_fulfilled p w username v :
  (p = Gfg -> score_card_plain w username) ->
  (getStats Refresh.refresh_stats_js p w username).2 = Normal v ->
  (getStats Refresh.part_000 p w username).2 = Normal v.
Proof.
  intros Hplain. destruct (decide (p = Gfg)) as [->|Hne].
  - specialize (Hplain eq_refl). cbn.
    destruct (gfg_profile w username) as [|[|page]] eqn:Hpage; [done|done|].
    rewrite (Hplain page Hpage). by destruct (gfg_script page).
  - rewrite part_000_or_null by done. apply or_null_Normal.
Qed.

Lemma part_000_keeps_success p w username :
  succeeded (Refresh.settle (getStats Refresh.refresh_stats_js p w username).2) = true ->
  succeeded (Refresh.settle (getStats Refresh.part_000 p w username).2) = true.
Proof.
  destruct (decide (p = Gfg)) as [->|Hne].
  - cbn. destruct (gfg_profile w username) as [|[|page]]; [done|done|].
    by destruct (gfg_script page).
  - rewrite part_000_or_null by done.
    by destruct (getStats Refresh.refresh_stats_js p w username).2.
Qed.

(** X11: for the same answers of the outside world, the later revision
    loses no key: the aggregate of part_000 has every key of that of
    src/api/refresh-stats.js, with the same record under every key but
    [gfg]; under [gfg] too when the score card of the page reads the
    same with and without radix. *)
Theorem X11_revisions_submap w userData :
  dom (Refresh.newStats (outcomes Refresh.refresh_stats_js w userData))
    ⊆ dom (Refresh.newStats (outcomes Refresh.part_000 w userData)) /\
  (forall k v, k <> "gfg" ->
     Refresh.newStats (outcomes Refresh.refresh_stats_js w userData) !! k = Some v ->
     Refresh.newStats (outcomes Refresh.part_000 w userData) !! k = Some v) /\
  (score_card_plain w (gfg_username userData) ->
   Refresh.newStats (outcomes Refresh.refresh_stats_js w userData)
   ⊆ Refresh.newStats (outcomes Refresh.part_000 w userData)).
Proof.
  split; [|split].
  - intros k. rewrite !aggregate_keys. intros (p & Hk & Hc & Hs).
    exists p. split; [done|]. split; [done|]. by apply part_000_keeps_success.
  - intros k v Hk. rewrite !aggregate_lookup.
    intros (p & Hc & Hp). exists p. split; [done|].
    pose proof (outcome_keyed Refresh.refresh_stats_js w userData p) as K.
    rewrite Hp in K. apply keyed_record_key in K.
    unfold outcome in *. apply settle_Fulfilled in Hp. apply settle_Fulfilled.
    apply part_000_keeps_fulfilled; [|done]. intros ->. by destruct Hk.
  - intros Hplain. apply map_subseteq_spec. intros k v. rewrite !aggregate_lookup.
    intros (p & Hc & Hp). exists p. split; [done|].
    unfold outcome in *. apply settle_Fulfilled in Hp. apply settle_Fulfilled.
    apply part_000_keeps_fulfilled; [|done]. by intros ->.
Qed.

Lemma X11_revisions_submap_witness :
  score_card_plain (world_of (fun _ => true)) (gfg_username (profile_of (fun _ => true))) /\
  own_total (Refresh.newStats (outcomes Refresh.refresh_stats_js (world_of (fun _ => true))
                                 (profile_of (fun _ => true)))) = Some (JNum 57) /\
  Refresh.newStats (outcomes Refresh.refresh_stats_js (world_of (fun _ => true))
                      (profile_of (fun _ => true)))
  ⊆ Refresh.newStats (outcomes Refresh.part_000 (world_of (fun _ => true))
                        (profile_of (fun _ => true))).
Proof.
  assert (score_card_plain (world_of (fun _ => true))
            (gfg_username (profile_of (fun _ => true)))) as Hplain
    by (by intros page [= <-]).
  split; [exact Hplain|]. split; [by vm_compute|].
  exact (proj2 (proj2 (X11_revisions_submap (world_of (fun _ => true))
                         (profile_of (fun _ => true)))) Hplain).
Defined.

(** On the score card [0x1F] the two revisions write different totals. *)
Example hex_score_card_totals :
  own_total (Refresh.newStats (outcomes Refresh.refresh_stats_js hex_world gfg_only))
    = Some (JNum 31) /\
  own_total (Refresh.newStats (outcomes Refresh.part_000 hex_world gfg_only))
    = Some (JNum 0) /\
  (GetScore.getGfgStats hex_world (JStr "carol")).2
    = Normal (JObj (gfg_fields (JStr "carol") (JNum 0) (JNum 3) (JNum 2) (JNum 1))).
Proof. by vm_compute. Qed.

Lemma part_000_record_back p w username fields :
  (p = Gfg -> score_card_plain w username) ->
  (forall page e, p = Gfg -> gfg_profile w username = Served (Read page) ->
                  gfg_script page <> BrokenProfileData e) ->
  (getStats Refresh.part_000 p w username).2 = Normal (JObj fields) ->
  (getStats Refresh.refresh_stats_js p w username).2 = Normal (JObj fields).
Proof.
  intros Hplain Hgfg. destruct (decide (p = Gfg)) as [->|Hne].
  - specialize (Hplain eq_refl). cbn.
    destruct (gfg_profile w username) as [|[|page]] eqn:Hpage; [done|done|].
    rewrite (Hplain page Hpage).
    specialize (Hgfg page). destruct (gfg_script page) as [|e|]; try done.
    by destruct (Hgfg e).
  - rewrite part_000_or_null by done. apply or_null_record.
Qed.

(** X12: the two revisions write the same aggregate when the
    GeeksforGeeks page, if it is served and read, has a score card that
    reads the same with and without radix and a script that parses. *)
Theorem X12_revisions_agree w userData :
  score_card_plain w (gfg_username userData) ->
  (forall page e, gfg_profile w (gfg_username userData) = Served (Read page) ->
                  gfg_script page <> BrokenProfileData e) ->
  Refresh.newStats (outcomes Refresh.refresh_stats_js w userData)
  = Refresh.newStats (outcomes Refresh.part_000 w userData).
Proof.
  intros Hplain Hgfg. apply map_eq. intros k. apply option_eq. intros v.
  rewrite !aggregate_lookup.
  split; intros (p & Hc & Hp); exists p; (split; [done|]);
    unfold outcome in *; apply settle_Fulfilled in Hp; apply settle_Fulfilled.
  - apply part_000_keeps_fulfilled; [|done]. by intros ->.
  - apply part_000_record_back; [by intros ->| |done].
    intros page e ->. apply Hgfg.
Qed.

Lemma X12_revisions_agree_witness :
  configured (profile_of (fun _ => true)) Gfg = true /\
  gfg_profile (world_of (fun _ => true)) (gfg_username (profile_of (fun _ => true)))
  = Served (Read {| gfg_score_card := fun _ => JNum 57;
                    gfg_script := SubmissionCounts (JNum 30) (JNum 20) (JNum 7) |}) /\
  own_total (Refresh.newStats (outcomes Refresh.part_000 (world_of (fun _ => true))
                                 (profile_of (fun _ => true)))) = Some (JNum 57) /\
  Refresh.newStats (outcomes Refresh.refresh_stats_js (world_of (fun _ => true))
                      (profile_of (fun _ => true)))
  = Refresh.newStats (outcomes Refresh.part_000 (world_of (fun _ => true))
                        (profile_of (fun _ => true))).
Proof.
  split; [reflexivity|]. split; [reflexivity|]. split; [by vm_compute|].
  apply (X12_revisions_agree (world_of (fun _ => true)) (profile_of (fun _ => true))).
  - by intros page [= <-].
  - by intros page e [= <-].
Defined.

(** X13: with a GeeksforGeeks page whose script does not parse, the
    adapter of src/api/refresh-stats.js rejects and the aggregate has no
    [gfg] key, while that of part_000 keeps the record with the three
    counts at zero. *)
Theorem X13_broken_script w userData page e :
  configured userData Gfg = true ->
  gfg_profile w (gfg_username userData) = Served (Read page) ->
  gfg_script page = BrokenProfileData e ->
  outcome Refresh.refresh_stats_js w userData Gfg = Refresh.Rejected e /\
  Refresh.newStats (outcomes Refresh.refresh_stats_js w userData) !! "gfg" = None /\
  Refresh.newStats (outcomes Refresh.part_000 w userData) !! "gfg"
  = Some (JObj (gfg_fields (gfg_username userData)
                  (js_or (gfg_score_card page Radix10) (JNum 0))
                  (JNum 0) (JNum 0) (JNum 0))).
Proof.
  intros Hc Hpage Hscript.
  assert (outcome Refresh.refresh_stats_js w userData Gfg = Refresh.Rejected e) as Hrej.
  { unfold outcome. cbn. by rewrite Hpage, Hscript. }
  split; [done|]. split.
  - apply (aggregate_at_None _ _ _ Gfg). by rewrite Hrej.
  - apply (aggregate_at _ _ _ Gfg). split; [done|].
    unfold outcome. cbn. by rewrite Hpage, Hscript.
Qed.

Lemma X13_broken_script_witness :
  configured gfg_only Gfg = true /\
  gfg_profile broken_world (gfg_username gfg_only)
  = Served (Read {| gfg_score_card := fun _ => JNaN;
                    gfg_script := BrokenProfileData "SyntaxError: Unexpected token" |}) /\
  Refresh.newStats (outcomes Refresh.refresh_stats_js broken_world gfg_only) !! "gfg" = None /\
  Refresh.newStats (outcomes Refresh.part_000 broken_world gfg_only) !! "gfg"
  = Some (JObj (gfg_fields (JStr "carol") (JNum 0) (JNum 0) (JNum 0) (JNum 0))).
Proof.
  split; [reflexivity|]. split; [reflexivity|].
  exact (proj2 (X13_broken_script broken_world gfg_only _ _ eq_refl eq_refl eq_refl)).
Defined.



(** ** More of the lookup endpoint *)

Lemma supported_key name : name ∈ supported <-> exists p, name = key p.
Proof.
  unfold supported. split.
  - intros Hin.
    apply elem_of_cons in Hin as [->|Hin]; [by exists LeetCode|].
    apply elem_of_cons in Hin as [->|Hin]; [by exists CodeChef|].
    apply elem_of_cons in Hin as [->|Hin]; [by exists HackerRank|].
    apply elem_of_cons in Hin as [->|Hin]; [by exists Gfg|].
    by apply elem_of_nil in Hin.
  - intros [[] ->]; listed.
Qed.

(** The lookup, case by case. *)
Lemma lookup_cases w request :
  ((truthy (GetScore.query_platform request) = false \/
    truthy (GetScore.query_username request) = false) /\
   GetScore.handler w request = (GetScore.bad_request, [])) \/
  (truthy (GetScore.query_platform request) = true /\
   truthy (GetScore.query_username request) = true /\
   (forall s, GetScore.query_platform request <> JStr s) /\
   GetScore.handler w request = (GetScore.failure (GetScore.query_platform request), [])) \/
  (exists s, GetScore.query_platform request = JStr s /\
     truthy (GetScore.query_username request) = true /\ (js_toLowerCase w s ∉ supported) /\
     GetScore.handler w request = (GetScore.unsupported, [])) \/
  (exists s p, GetScore.query_platform request = JStr s /\
     truthy (GetScore.query_username request) = true /\ js_toLowerCase w s = key p /\
     GetScore.handler w request =
       (match (lookup_adapter p w (GetScore.query_username request)).2 with
        | Normal data => GetScore.ok data
        | Throw _ => GetScore.failure (JStr s)
        end, [HttpCall p (GetScore.query_username request)])).
Proof.
  destruct (truthy (GetScore.query_platform request)) eqn:Hp;
    [|left; split; [by left|apply lookup_missing; by left]].
  destruct (truthy (GetScore.query_username request)) eqn:Hu;
    [|left; split; [by right|apply lookup_missing; by right]].
  right. rewrite lookup_tried by done. cbv zeta.
  destruct (GetScore.query_platform request) as [| | | | |s| |] eqn:Hs;
    try (left; repeat split; done).
  right. destruct (decide (js_toLowerCase w s ∈ supported)) as [[p Hk]%supported_key|Hno].
  - right. exists s, p. rewrite (dispatch_lowered _ _ p) by done.
    unfold GetScore.answer. cbn [fst snd]. rewrite lookup_adapter_started.
    repeat split; try done. by destruct (lookup_adapter p w _).2.
  - left. exists s. by rewrite dispatch_unsupported.
Qed.

(** X15: the lookup answers 200, 400 or 500, and it sets the
    Cache-Control header exactly on a 200. *)
Theorem X15_lookup_statuses_and_cache w request :
  status (GetScore.handler w request).1 ∈ lookup_statuses /\
  (headers (GetScore.handler w request).1
     = [("Cache-Control", "s-maxage=3600, stale-while-revalidate")] <->
   status (GetScore.handler w request).1 = 200) /\
  (status (GetScore.handler w request).1 <> 200 -> headers (GetScore.handler w request).1 = []).
Proof.
  unfold lookup_statuses.
  destruct (lookup_cases w request)
    as [[_ ->]|[(_ & _ & _ & ->)|[(s & _ & _ & _ & ->)|(s & p & _ & _ & _ & ->)]]];
    cbn [fst]; try (split; [cbn; listed|by split]).
  destruct (lookup_adapter p w _).2; (split; [cbn; listed|by split]).
Qed.

(** X16: a lookup makes at most one network call, the one of the adapter
    that [toLowerCase()] of the platform names and with the username of
    the query, and none when it answers 400. *)
Theorem X16_lookup_calls w request :
  (length (GetScore.handler w request).2 <= 1)%nat /\
  (status (GetScore.handler w request).1 = 400 -> (GetScore.handler w request).2 = []) /\
  (forall e, e ∈ (GetScore.handler w request).2 ->
     exists s p, GetScore.query_platform request = JStr s /\ js_toLowerCase w s = key p /\
                 e = HttpCall p (GetScore.query_username request)).
Proof.
  destruct (lookup_cases w request)
    as [[_ ->]|[(_ & _ & _ & ->)|[(s & _ & _ & _ & ->)|(s & p & Hs & _ & Hk & ->)]]];
    cbn [fst snd].
  1-3: split; [cbn; lia|split; [done|by intros e ?%elem_of_nil]].
  split; [cbn; lia|]. split.
  - by destruct (lookup_adapter p w _).2.
  - intros e ->%list_elem_of_singleton. by exists s, p.
Qed.

(** X17: a platform that is not a string (a query that gives the
    parameter more than once) is answered 500 without a network call:
    [toLowerCase] throws inside the try block. *)
Theorem X17_platform_not_a_string w request :
  truthy (GetScore.query_platform request) = true ->
  truthy (GetScore.query_username request) = true ->
  (forall s, GetScore.query_platform request <> JStr s) ->
  status (GetScore.handler w request).1 = 500 /\ (GetScore.handler w request).2 = [].
Proof.
  intros Hp Hu Hs.
  destruct (lookup_cases w request)
    as [[[H|H] _]|[(_ & _ & _ & ->)|[(s & Hs' & _)|(s & p & Hs' & _)]]].
  - congruence.
  - congruence.
  - done.
  - by destruct (Hs s).
  - by destruct (Hs s).
Qed.

Lemma X17_platform_not_a_string_witness :
  truthy (JArr [JStr "leetcode"; JStr "gfg"]) = true /\
  status (GetScore.handler lookup_world
            {| GetScore.query_platform := JArr [JStr "leetcode"; JStr "gfg"];
               GetScore.query_username := JStr "alice" |}).1 = 500 /\
  (GetScore.handler lookup_world
     {| GetScore.query_platform := JArr [JStr "leetcode"; JStr "gfg"];
        GetScore.query_username := JStr "alice" |}).2 = [].
Proof.
  split; [reflexivity|].
  apply (X17_platform_not_a_string lookup_world
           {| GetScore.query_platform := JArr [JStr "leetcode"; JStr "gfg"];
              GetScore.query_username := JStr "alice" |}); [reflexivity|reflexivity|].
  intros s. discriminate.
Defined.

(** X18: the lookup does not tell the case of the platform name: with
    the name in lower case the status, the headers and the network call
    are the same, and so is the body unless the answer is 500 (whose
    message quotes the platform as it was given). *)
Theorem X18_platform_case w s username :
  let given := GetScore.handler w {| GetScore.query_platform := JStr s;
                                     GetScore.query_username := username |} in
  let lowered := GetScore.handler w {| GetScore.query_platform := JStr (toLowerCase s);
                                       GetScore.query_username := username |} in
  status given.1 = status lowered.1 /\
  headers given.1 = headers lowered.1 /\
  given.2 = lowered.2 /\
  (status given.1 <> 500 -> body given.1 = body lowered.1).
Proof.
  cbv zeta. unfold GetScore.handler. cbn [GetScore.query_platform GetScore.query_username].
  assert (truthy (JStr (toLowerCase s)) = truthy (JStr s)) as -> by (by destruct s).
  destruct (negb (truthy (JStr s)) || negb (truthy username)); [done|].
  unfold GetScore.dispatch, GetScore.lowered. rewrite js_toLowerCase_lowered.
  repeat match goal with
         | |- context [String.eqb (js_toLowerCase w s) ?n] =>
             destruct (String.eqb (js_toLowerCase w s) n); [|]
         end;
    try (unfold GetScore.answer; cbn [fst snd];
         match goal with |- context [(?c).2 ≫= _] => destruct (c).2 end); done.
Qed.

(** X20: the GeeksforGeeks record is flat in the lookup and nested in
    the refresh: the lookup completes with the fields exactly when the
    adapter of part_000 completes with the same fields under [gfg]; and
    whenever the adapter of src/api/refresh-stats.js does, if the score
    card of the page reads the same with and without radix. *)
Theorem X20_gfg_flat_and_nested w username fields :
  ((lookup_adapter Gfg w username).2 = Normal (JObj fields) <->
   (getStats Refresh.part_000 Gfg w username).2 = Normal (JObj [("gfg", JObj fields)])) /\
  (score_card_plain w username ->
   (getStats Refresh.refresh_stats_js Gfg w username).2
     = Normal (JObj [("gfg", JObj fields)]) ->
   (lookup_adapter Gfg w username).2 = Normal (JObj fields)) /\
  ((lookup_adapter Gfg w username).2 = Normal (JObj fields) ->
   own fields "username" = username /\ own fields "gfg" = JUndefined).
Proof.
  unfold score_card_plain. cbn.
  destruct (gfg_profile w username) as [|[|page]]; [by repeat split|by repeat split|].
  split; [|split].
  - destruct (gfg_script page); cbn; split; by intros [= <-].
  - intros Hplain. rewrite (Hplain page eq_refl).
    destruct (gfg_script page); cbn; by intros [= <-].
  - destruct (gfg_script page); cbn; by intros [= <-].
Qed.

(** X19: when a scraped site serves a body that [cheerio.load] throws
    on, the lookup answers 500 after its one call; in the refresh the
    adapter of src/api/refresh-stats.js rejects with that error and the
    one of part_000 is fulfilled with [null], and in both revisions the
    aggregate has no key for the platform. *)
Theorem X19_unreadable_body w p s username e :
  unreadable w p username = Some e ->
  toLowerCase s = key p ->
  truthy username = true ->
  (status (GetScore.handler w {| GetScore.query_platform := JStr s;
                                 GetScore.query_username := username |}).1 = 500 /\
   (GetScore.handler w {| GetScore.query_platform := JStr s;
                          GetScore.query_username := username |}).2
     = [HttpCall p username]) /\
  (getStats Refresh.refresh_stats_js p w username).2 = Throw e /\
  (getStats Refresh.part_000 p w username).2 = Normal JNull /\
  (forall f userData, username_of userData p = username ->
     Refresh.newStats (outcomes f w userData) !! key p = None).
Proof.
  intros He Hk Hu.
  assert ((lookup_adapter p w username).2 = Throw e /\
          (getStats Refresh.refresh_stats_js p w username).2 = Throw e /\
          (getStats Refresh.part_000 p w username).2 = Normal JNull) as (Hl & Hr & Hp).
  { unfold unreadable, load_error in He. destruct p; [done| | |]; cbn in *.
    - destruct (codechef_profile w username) as [|[|]]; simplify_eq; by cbn.
    - destruct (hackerrank_profile w username) as [|[|]]; simplify_eq; by cbn.
    - destruct (gfg_profile w username) as [|[|]]; simplify_eq; by cbn. }
  split; [|split; [done|split; [done|]]].
  - rewrite lookup_tried; [|by eapply lowered_key_truthy|done].
    cbn [GetScore.query_platform GetScore.query_username]. cbv zeta.
    rewrite (dispatch_supported _ _ p) by done.
    unfold GetScore.answer. cbn [fst snd]. by rewrite lookup_adapter_started, Hl.
  - intros f userData Hname. apply aggregate_at_None.
    unfold outcome. rewrite Hname. by destruct f; rewrite ?Hr, ?Hp.
Qed.

Lemma X19_unreadable_body_witness :
  unreadable kelvin_world Gfg (JStr "alice")
    = Some "TypeError: cheerio.load() expects a string" /\
  status (GetScore.handler kelvin_world (lookup "GFG" "alice")).1 = 500 /\
  (GetScore.handler kelvin_world (lookup "GFG" "alice")).2 = [HttpCall Gfg (JStr "alice")].
Proof.
  split; [reflexivity|].
  exact (proj1 (X19_unreadable_body kelvin_world Gfg "GFG" (JStr "alice") _
                  eq_refl eq_refl eq_refl)).
Defined.

(** ** The LeetCode record *)

Lemma js_or_bucket c : is_bucket (js_or c (JNum 0)).
Proof. unfold is_bucket, js_or. destruct (truthy c) eqn:E; eauto. Qed.

Lemma bucket_is_bucket dk ck label stats v :
  bucket dk ck label stats = Normal v -> is_bucket v.
Proof.
  unfold bucket. destruct (js_find dk label stats) as [found|]; [|done]. cbn.
  destruct (opt_prop found ck) as [c|]; [|done]. cbn.
  intros [= <-]. apply js_or_bucket.
Qed.

Lemma leetcode_record_buckets dk ck stats v :
  leetcode_record dk ck stats = Normal v ->
  exists all easy medium hard,
    v = JObj [("leetcode", JObj [("problems_solved", all); ("Easy", easy);
                                 ("Medium", medium); ("Hard", hard)])] /\
    is_bucket all /\ is_bucket easy /\ is_bucket medium /\ is_bucket hard.
Proof.
  unfold leetcode_record.
  destruct (bucket dk ck "All" stats) as [all|] eqn:Ha; [|done]. cbn.
  destruct (bucket dk ck "Easy" stats) as [easy|] eqn:He; [|done]. cbn.
  destruct (bucket dk ck "Medium" stats) as [medium|] eqn:Hm; [|done]. cbn.
  destruct (bucket dk ck "Hard" stats) as [hard|] eqn:Hh; [|done]. cbn.
  intros [= <-]. exists all, easy, medium, hard.
  eauto 10 using bucket_is_bucket.
Qed.

(** X21: whenever the lookup answers 200 for LeetCode, the body is the
    record with the four buckets and each bucket is a truthy count or
    the number 0: never [undefined], [null] or [NaN]. *)
Theorem X21_leetcode_buckets w s username :
  toLowerCase s = "leetcode" ->
  truthy username = true ->
  status (GetScore.handler w {| GetScore.query_platform := JStr s;
                                GetScore.query_username := username |}).1 = 200 ->
  exists all easy medium hard,
    body (GetScore.handler w {| GetScore.query_platform := JStr s;
                                GetScore.query_username := username |}).1
    = JObj [("leetcode", JObj [("problems_solved", all); ("Easy", easy);
                               ("Medium", medium); ("Hard", hard)])] /\
    is_bucket all /\ is_bucket easy /\ is_bucket medium /\ is_bucket hard.
Proof.
  intros Hk Hu.
  rewrite lookup_tried; [|by apply (lowered_key_truthy s LeetCode)|done].
  cbn [GetScore.query_platform GetScore.query_username]. cbv zeta.
  rewrite (dispatch_supported _ _ LeetCode) by done.
  unfold GetScore.answer, lookup_adapter, GetScore.getLeetCodeStats. cbn [fst snd].
  destruct (leetcode_graphql w username) as [|data]; [done|].
  destruct (prop data "errors") as [errors|]; [|done]. cbn [mbind completion_bind].
  destruct (truthy errors).
  { by destruct (prop (elem0 errors) "message"). }
  destruct (acSubmissionNum data) as [stats|]; [|done]. cbn [mbind completion_bind].
  destruct (leetcode_record "difficulty" "count" stats) as [v|] eqn:Hr; [|done].
  intros _. cbn. by apply leetcode_record_buckets in Hr.
Qed.

Lemma X21_leetcode_buckets_witness :
  toLowerCase "LeetCode" = "leetcode" /\ truthy (JStr "alice") = true /\
  status (GetScore.handler lookup_world (lookup "LeetCode" "alice")).1 = 200 /\
  exists all easy medium hard,
    body (GetScore.handler lookup_world (lookup "LeetCode" "alice")).1
    = JObj [("leetcode", JObj [("problems_solved", all); ("Easy", easy);
                               ("Medium", medium); ("Hard", hard)])] /\
    is_bucket all /\ is_bucket easy /\ is_bucket medium /\ is_bucket hard.
Proof.
  split; [reflexivity|]. split; [reflexivity|]. split; [reflexivity|].
  exact (X21_leetcode_buckets lookup_world "LeetCode" (JStr "alice") eq_refl eq_refl eq_refl).
Defined.

(** ** The merge on any results *)






(** A property named [__proto__] of a result makes no key of the
    aggregate. *)
Example proto_makes_no_key :
  Refresh.newStats [Refresh.Fulfilled (JObj [("__proto__", JObj [("leetcode", JNum 1)]);
                                             ("codechef", JNum 2)])]
  = {[ "codechef" := JNum 2 ]}.
Proof. reflexivity. Qed.

(** ** The properties above on the worked requests *)

Lemma X4_gate_statuses_witness :
  Refresh.method get_request <> "POST" /\
  status <$> (Refresh.handler Refresh.part_000 sample_world [] get_request).1 = Some 405 /\
  (Refresh.method (post (Some "Basic dXNlcg==")) = "POST" /\
   lacks_bearer (post (Some "Basic dXNlcg=="))) /\
  status <$> (Refresh.handler Refresh.part_000 sample_world []
                (post (Some "Basic dXNlcg=="))).1 = Some 401.
Proof.
  assert (Refresh.method get_request <> "POST") as Hget by discriminate.
  assert (Refresh.method (post (Some "Basic dXNlcg==")) = "POST" /\
          lacks_bearer (post (Some "Basic dXNlcg=="))) as Hbasic by (by split).
  split; [exact Hget|]. split.
  - exact (proj2 (proj1 (X4_gate_statuses Refresh.part_000 sample_world [] get_request)) Hget).
  - split; [exact Hbasic|].
    exact (proj2 (proj1 (proj2 (X4_gate_statuses Refresh.part_000 sample_world []
                                  (post (Some "Basic dXNlcg=="))))) Hbasic).
Defined.

Lemma X15_lookup_statuses_and_cache_witness :
  status (GetScore.handler lookup_world (lookup "leetcode" "nobody")).1 <> 200 /\
  headers (GetScore.handler lookup_world (lookup "leetcode" "nobody")).1 = [] /\
  status (GetScore.handler lookup_world (lookup "leetcode" "alice")).1 = 200 /\
  headers (GetScore.handler lookup_world (lookup "leetcode" "alice")).1
    = [("Cache-Control", "s-maxage=3600, stale-while-revalidate")].
Proof.
  assert (status (GetScore.handler lookup_world (lookup "leetcode" "nobody")).1 <> 200)
    as Hno by (by vm_compute).
  assert (status (GetScore.handler lookup_world (lookup "leetcode" "alice")).1 = 200)
    as Hok by (by vm_compute).
  split; [exact Hno|]. split.
  - exact (proj2 (proj2 (X15_lookup_statuses_and_cache lookup_world
                           (lookup "leetcode" "nobody"))) Hno).
  - split; [exact Hok|].
    exact (proj2 (proj1 (proj2 (X15_lookup_statuses_and_cache lookup_world
                                  (lookup "leetcode" "alice")))) Hok).
Defined.

Lemma X16_lookup_calls_witness :
  (status (GetScore.handler lookup_world (lookup "topcoder" "alice")).1 = 400 /\
   (GetScore.handler lookup_world (lookup "topcoder" "alice")).2 = []) /\
  (HttpCall HackerRank (JStr "alice")
     ∈ (GetScore.handler kelvin_world (lookup kelvin_name "alice")).2 /\
   exists s p, JStr kelvin_name = JStr s /\ js_toLowerCase kelvin_world s = key p /\
               HttpCall HackerRank (JStr "alice") = HttpCall p (JStr "alice")).
Proof.
  assert (status (GetScore.handler lookup_world (lookup "topcoder" "alice")).1 = 400)
    as Hbad by (by vm_compute).
  assert (HttpCall HackerRank (JStr "alice")
            ∈ (GetScore.handler kelvin_world (lookup kelvin_name "alice")).2) as Hin
    by (vm_compute; apply list_elem_of_here).
  split.
  - split; [exact Hbad|].
    exact (proj1 (proj2 (X16_lookup_calls lookup_world (lookup "topcoder" "alice"))) Hbad).
  - split; [exact Hin|].
    exact (proj2 (proj2 (X16_lookup_calls kelvin_world (lookup kelvin_name "alice"))) _ Hin).
Defined.

Lemma X20_gfg_flat_and_nested_witness :
  (lookup_adapter Gfg broken_world (JStr "carol")).2
    = Normal (JObj (gfg_fields (JStr "carol") (JNum 0) (JNum 0) (JNum 0) (JNum 0))) /\
  (getStats Refresh.part_000 Gfg broken_world (JStr "carol")).2
    = Normal (JObj [("gfg", JObj (gfg_fields (JStr "carol") (JNum 0) (JNum 0) (JNum 0)
                                    (JNum 0)))]).
Proof.
  assert ((lookup_adapter Gfg broken_world (JStr "carol")).2
          = Normal (JObj (gfg_fields (JStr "carol") (JNum 0) (JNum 0) (JNum 0) (JNum 0))))
    as Hflat by reflexivity.
  split; [exact Hflat|].
  exact (proj1 (proj1 (X20_gfg_flat_and_nested broken_world (JStr "carol") _)) Hflat).
Defined.
